(** * Capsule Memory Python SDK: a shallow embedding of
      [packages/python/capsule_memory/__init__.py]

    The client is a thin wrapper around one HTTP call per public method.
    The embedding keeps the shape of the source:
    - Python / JSON values are an inductive type [value]; a [dict] with
      string keys is a [gmap string value] (Python compares dicts
      extensionally, and so does [gmap]);
    - a Python float is an IEEE-754 binary64 datum, [spec_float];
    - exceptions are an inductive type [exn], fallible code returns
      [result];
    - the only effect, [self._session.request(...)], is explicit state
      passing over the list of requests put on the wire so far. *)

From Stdlib Require Import ZArith String Ascii.
From Stdlib Require Import Floats.SpecFloat.
From Stdlib Require Import DecimalString DecimalZ.
From stdpp Require Import gmap strings list fin_maps.

Set Warnings "-register-all".

Local Open Scope Z_scope.

(** ** Values *)

Inductive value : Type :=
| VNone
| VBool (b : bool)
| VInt (z : Z)
| VFloat (f : spec_float)
| VStr (s : string)
| VList (l : list value)
| VDict (d : gmap string value).

Abbreviation dict := (gmap string value).

(** The float literal [0.6]: 0x3FE3333333333333, that is
    5404319552844595 * 2^-53. *)
Definition float_0_6 : spec_float := S754_finite false 5404319552844595 (-53).

(** The float literal [0.0]. *)
Definition float_0_0 : spec_float := S754_zero false.

Definition of_optional {A} (inj : A → value) (x : option A) : value :=
  match x with
  | Some a => inj a
  | None => VNone
  end.

(** ** Truthiness and [or]

    [x or y] evaluates to [x] when [bool(x)] is true and to [y] otherwise.
    [None], [0.0], [-0.0], the empty string and the empty dict are false. *)

Class Truthy (A : Type) := truthy : A → bool.

#[global] Instance truthy_float : Truthy spec_float := λ f,
  match f with
  | S754_zero _ => false
  | _ => true
  end.

#[global] Instance truthy_str : Truthy string := λ s,
  match s with
  | EmptyString => false
  | String _ _ => true
  end.

#[global] Instance truthy_dict : Truthy dict := λ d,
  negb (Nat.eqb (size d) 0).

#[global] Instance truthy_optional {A} `{Truthy A} : Truthy (option A) := λ x,
  match x with
  | Some a => truthy a
  | None => false
  end.

(** [x or y] for [x : Optional[A]] and [y : A]. *)
Definition py_or {A} `{Truthy A} (x : option A) (y : A) : A :=
  match x with
  | Some a => if truthy a then a else y
  | None => y
  end.

(** [x or None] for [x : Optional[A]]. *)
Definition py_or_None {A} `{Truthy A} (x : option A) : option A :=
  if truthy x then x else None.

(** ** Exceptions and results *)

Inductive exn : Type :=
| RuntimeError (msg : string)
| KeyError (key : string)
| AttributeError
| TypeError
| JSONDecodeError
| RequestException.

Inductive result (A : Type) : Type :=
| Ok (a : A)
| Raise (e : exn).

Arguments Ok {A} a.
Arguments Raise {A} e.

#[global] Instance result_ret : MRet result := λ A a, Ok a.

#[global] Instance result_bind : MBind result := λ A B f m,
  match m with
  | Ok a => f a
  | Raise e => Raise e
  end.

Fixpoint traverse {A B} (f : A → result B) (l : list A) : result (list B) :=
  match l with
  | [] => Ok []
  | a :: l' =>
      b ← f a;
      bs ← traverse f l';
      Ok (b :: bs)
  end.

(** ** Operations on values used by the client *)

(** [v.get(key, default)]: only a dict has the attribute [get]. *)
Definition py_get (v : value) (key : string) (default : value) : result value :=
  match v with
  | VDict d =>
      match d !! key with
      | Some x => Ok x
      | None => Ok default
      end
  | _ => Raise AttributeError
  end.

(** [v[key]] with a string key: [KeyError] on a dict without the key,
    [TypeError] on anything that is not a dict. *)
Definition py_getitem (v : value) (key : string) : result value :=
  match v with
  | VDict d =>
      match d !! key with
      | Some x => Ok x
      | None => Raise (KeyError key)
      end
  | _ => Raise TypeError
  end.

Fixpoint chars (s : string) : list value :=
  match s with
  | EmptyString => []
  | String c s' => VStr (String c EmptyString) :: chars s'
  end.

(** [for x in v]: a list yields its items, a dict its keys, a string its
    characters; other values are not iterable. *)
Definition py_iter (v : value) : result (list value) :=
  match v with
  | VList l => Ok l
  | VDict d => Ok (VStr <$> (map_to_list d).*1)
  | VStr s => Ok (chars s)
  | _ => Raise TypeError
  end.

(** [str(n)] for an int. *)
Definition str_int (n : Z) : string := NilEmpty.string_of_int (Z.to_int n).

(** [s.rstrip('/')] *)
Fixpoint rstrip_slash (s : string) : string :=
  match s with
  | EmptyString => EmptyString
  | String c s' =>
      match rstrip_slash s' with
      | EmptyString => if Ascii.eqb c "/" then EmptyString else String c EmptyString
      | r => String c r
      end
  end.

(** [s.startswith('/')] *)
Definition startswith_slash (s : string) : bool :=
  match s with
  | String c _ => Ascii.eqb c "/"
  | EmptyString => false
  end.

(** A dict display [{**base, **extra}]: later entries replace earlier ones. *)
Definition dict_display (base extra : dict) : dict := extra ∪ base.

(** ** The transport *)

Record request : Type := {
  method : string;
  url : string;
  headers : gmap string string;
  json : option dict;
  params : option dict;
  timeout : Z;
}.

(** What the client reads from a [requests.Response]: [status_code],
    [text], and [json()], which is [None] when the body is not JSON. *)
Record response : Type := {
  status_code : Z;
  text : string;
  response_json : option value;
}.

(** A session answers a request, or fails ([None]: timeout, connection
    error). *)
Definition Session : Type := request → option response.

(** Computations of the client: the wire is the list of requests sent. *)
Definition M (A : Type) : Type := list request → result A * list request.

#[global] Instance M_ret : MRet M := λ A a wire, (Ok a, wire).

#[global] Instance M_bind : MBind M := λ A B f m wire,
  match m wire with
  | (Ok a, wire') => f a wire'
  | (Raise e, wire') => (Raise e, wire')
  end.

#[global] Instance M_fmap : FMap M := λ A B f m wire,
  match m wire with
  | (Ok a, wire') => (Ok (f a), wire')
  | (Raise e, wire') => (Raise e, wire')
  end.

Definition raise {A} (e : exn) : M A := λ wire, (Raise e, wire).

Definition lift {A} (r : result A) : M A := λ wire, (r, wire).

Definition session_request (session : Session) (req : request) : M response :=
  λ wire,
    match session req with
    | Some resp => (Ok resp, wire ++ [req])
    | None => (Raise RequestException, wire ++ [req])
    end.

(** Runs a computation on an empty wire. *)
Definition run {A} (m : M A) : result A * list request := m [].

(** ** Data model *)

Module CaptureScoreResult.
Record t : Type := {
  event_id : value;
  candidate_id : value;
  status : value;
  recommended : value;
  score : value;
  reasons : value;
  memory_id : value;
}.
End CaptureScoreResult.

Module CaptureScoreResponse.
Record t : Type := {
  threshold : value;
  results : list CaptureScoreResult.t;
}.
End CaptureScoreResponse.

Module CaptureCandidate.
Record t : Type := {
  id : value;
  role : value;
  content : value;
  status : value;
  score : value;
  threshold : value;
  recommended : value;
  category : value;
  reasons : value;
  metadata : value;
  memory_id : value;
  auto_accepted : value;
  auto_decision_reason : value;
  created_at : value;
  updated_at : value;
}.
End CaptureCandidate.

(** ** The client *)

Record CapsuleMemoryClient : Type := {
  _base : string;
  _api_key : string;
  _org : string;
  _project : string;
  _subject : string;
  _session : Session;
}.

(** [requests_Session] stands for the object [requests.Session()] builds. *)
Definition __init__ (requests_Session : Session)
    (base_url api_key org_id project_id default_subject_id : string)
    (session : option Session) : CapsuleMemoryClient :=
  {| _base := rstrip_slash base_url;
     _api_key := api_key;
     _org := org_id;
     _project := project_id;
     _subject := default_subject_id;
     _session := default requests_Session session |}.

Definition _headers (self : CapsuleMemoryClient) (subject_id : option string)
    : gmap string string :=
  {[ "Content-Type" := "application/json";
     "X-Capsule-Key" := _api_key self;
     "X-Capsule-Org" := _org self;
     "X-Capsule-Project" := _project self;
     "X-Capsule-Subject" := py_or subject_id (_subject self) ]}.

Definition request_failed_message (status_code : Z) (text : string) : string :=
  "Capsule request failed (" +:+ str_int status_code +:+ "): " +:+ text.

(** The envelope rule of the last line of [_request]. *)
Definition unwrap (payload : value) : value :=
  match payload with
  | VDict d =>
      match d !! "data" with
      | Some v => v
      | None => payload
      end
  | _ => payload
  end.

Definition _request (self : CapsuleMemoryClient) (method path : string)
    (json params : option dict) (subject_id : option string) : M value :=
  let url := _base self +:+ (if startswith_slash path then path else "/" +:+ path) in
  response ← session_request (_session self)
    {| method := method;
       url := url;
       headers := _headers self subject_id;
       json := json;
       params := params;
       timeout := 30 |};
  if 400 <=? status_code response
  then raise (RuntimeError
                (request_failed_message (status_code response) (text response)))
  else
    match response_json response with
    | None => raise JSONDecodeError
    | Some payload => mret (unwrap payload)
    end.

(** ** Keyword binding

    Python binds the keyword arguments of a call before the body runs.  A
    call [f(a=x, **extra)] in which [extra] repeats the name of a parameter
    raises [TypeError] (got multiple values for keyword argument); so the
    [**kwargs] dict seen by the body never holds a parameter's name, [self]
    included. *)

Definition collides (names : list string) (extra : dict) : bool :=
  existsb (λ name, bool_decide (is_Some (extra !! name))) names.

Definition bind_keywords (names : list string) (extra : dict) : M unit :=
  if collides names extra then raise TypeError else mret tt.

(** ** Core operations *)

Definition store_memory (self : CapsuleMemoryClient)
    (content : string) (pinned : bool) (kwargs : dict) : M value :=
  _ ← bind_keywords ["self"; "content"; "pinned"] kwargs;
  let body :=
    dict_display {[ "content" := VStr content; "pinned" := VBool pinned ]}
      kwargs in
  _request self "POST" "/v1/memories" (Some body) None None.

Definition list_memories (self : CapsuleMemoryClient)
    (limit : Z) (subject_id : option string) (filters : dict) : M value :=
  _ ← bind_keywords ["self"; "limit"; "subject_id"] filters;
  let params := dict_display {[ "limit" := VInt limit ]} filters in
  _request self "GET" "/v1/memories" None (Some params) subject_id.

Definition search (self : CapsuleMemoryClient)
    (query : string) (subject_id : option string) (options : dict) : M value :=
  _ ← bind_keywords ["self"; "query"; "subject_id"] options;
  let body := dict_display {[ "query" := VStr query ]} options in
  _request self "POST" "/v1/memories/search" (Some body) None subject_id.

(** ** Capture pipeline helpers *)

(** One element of the comprehension of [score_capture] ([entry] is the
    loop variable [result]); the fields are evaluated in the order of the
    source. *)
Definition decode_score_result (entry : value) : result CaptureScoreResult.t :=
  event_id ← py_get entry "eventId" VNone;
  candidate_id ← py_get entry "candidateId" VNone;
  status ← py_getitem entry "status";
  recommended ← py_getitem entry "recommended";
  score ← py_getitem entry "score";
  reasons ← py_get entry "reasons" (VList []);
  memory_id ← py_get entry "memoryId" VNone;
  Ok {| CaptureScoreResult.event_id := event_id;
        CaptureScoreResult.candidate_id := candidate_id;
        CaptureScoreResult.status := status;
        CaptureScoreResult.recommended := recommended;
        CaptureScoreResult.score := score;
        CaptureScoreResult.reasons := reasons;
        CaptureScoreResult.memory_id := memory_id |}.

(** Lines 135-147: what [score_capture] does with the payload. *)
Definition decode_score_response (threshold : option spec_float) (payload : value)
    : result CaptureScoreResponse.t :=
  raw ← py_get payload "results" (VList []);
  items ← py_iter raw;
  results ← traverse decode_score_result items;
  thr ← py_get payload "threshold" (VFloat (py_or threshold float_0_6));
  Ok {| CaptureScoreResponse.threshold := thr;
        CaptureScoreResponse.results := results |}.

Definition score_capture (self : CapsuleMemoryClient)
    (events : list value) (threshold : option spec_float)
    (subject_id : option string) : M CaptureScoreResponse.t :=
  payload ← _request self "POST" "/v1/memories/capture"
    (Some {[ "events" := VList events;
             "threshold" := of_optional VFloat threshold ]})
    None subject_id;
  lift (decode_score_response threshold payload).

(** One element of the comprehension of [list_capture_candidates]. *)
Definition decode_candidate (item : value) : result CaptureCandidate.t :=
  id ← py_getitem item "id";
  role ← py_getitem item "role";
  content ← py_getitem item "content";
  status ← py_getitem item "status";
  score ← py_getitem item "score";
  threshold ← py_getitem item "threshold";
  recommended ← py_getitem item "recommended";
  category ← py_get item "category" (VStr "");
  reasons ← py_get item "reasons" (VList []);
  metadata ← py_get item "metadata" (VDict ∅);
  memory_id ← py_get item "memoryId" VNone;
  auto_accepted ← py_get item "autoAccepted" (VBool false);
  auto_decision_reason ← py_get item "autoDecisionReason" VNone;
  created_at ← py_get item "createdAt" (VStr "");
  updated_at ← py_get item "updatedAt" (VStr "");
  Ok {| CaptureCandidate.id := id;
        CaptureCandidate.role := role;
        CaptureCandidate.content := content;
        CaptureCandidate.status := status;
        CaptureCandidate.score := score;
        CaptureCandidate.threshold := threshold;
        CaptureCandidate.recommended := recommended;
        CaptureCandidate.category := category;
        CaptureCandidate.reasons := reasons;
        CaptureCandidate.metadata := metadata;
        CaptureCandidate.memory_id := memory_id;
        CaptureCandidate.auto_accepted := auto_accepted;
        CaptureCandidate.auto_decision_reason := auto_decision_reason;
        CaptureCandidate.created_at := created_at;
        CaptureCandidate.updated_at := updated_at |}.

(** Lines 162-181: what [list_capture_candidates] does with the payload. *)
Definition decode_candidates (payload : value) : result (list CaptureCandidate.t) :=
  raw ← py_get payload "items" (VList []);
  items ← py_iter raw;
  traverse decode_candidate items.

Definition list_capture_candidates (self : CapsuleMemoryClient)
    (status : string) (limit : Z) (subject_id : option string)
    : M (list CaptureCandidate.t) :=
  payload ← _request self "GET" "/v1/memories/capture" None
    (Some {[ "status" := VStr status; "limit" := VInt limit ]})
    subject_id;
  lift (decode_candidates payload).

Definition approve_capture_candidate (self : CapsuleMemoryClient)
    (candidate_id : string) (overrides : option dict)
    (subject_id : option string) : M value :=
  _request self "POST"
    ("/v1/memories/capture/" +:+ candidate_id +:+ "/approve")
    (Some {[ "memory" := of_optional VDict (py_or_None overrides) ]})
    None subject_id.

Definition reject_capture_candidate (self : CapsuleMemoryClient)
    (candidate_id : string) (reason : option string)
    (subject_id : option string) : M value :=
  _request self "POST"
    ("/v1/memories/capture/" +:+ candidate_id +:+ "/reject")
    (Some {[ "reason" := of_optional VStr reason ]})
    None subject_id.

(** ** Public method calls

    A call of any public method, with its arguments, and what it returns. *)

Inductive call : Type :=
| Store_memory (content : string) (pinned : bool) (kwargs : dict)
| List_memories (limit : Z) (subject_id : option string) (filters : dict)
| Search (query : string) (subject_id : option string) (options : dict)
| Score_capture (events : list value) (threshold : option spec_float)
    (subject_id : option string)
| List_capture_candidates (status : string) (limit : Z)
    (subject_id : option string)
| Approve_capture_candidate (candidate_id : string) (overrides : option dict)
    (subject_id : option string)
| Reject_capture_candidate (candidate_id : string) (reason : option string)
    (subject_id : option string).

Inductive returned : Type :=
| Mapping (v : value)
| Score (r : CaptureScoreResponse.t)
| Candidates (l : list CaptureCandidate.t).

Definition invoke (self : CapsuleMemoryClient) (c : call) : M returned :=
  match c with
  | Store_memory content pinned kwargs =>
      Mapping <$> store_memory self content pinned kwargs
  | List_memories limit subject_id filters =>
      Mapping <$> list_memories self limit subject_id filters
  | Search query subject_id options =>
      Mapping <$> search self query subject_id options
  | Score_capture events threshold subject_id =>
      Score <$> score_capture self events threshold subject_id
  | List_capture_candidates status limit subject_id =>
      Candidates <$> list_capture_candidates self status limit subject_id
  | Approve_capture_candidate candidate_id overrides subject_id =>
      Mapping <$> approve_capture_candidate self candidate_id overrides subject_id
  | Reject_capture_candidate candidate_id reason subject_id =>
      Mapping <$> reject_capture_candidate self candidate_id reason subject_id
  end.

(** The [subject_id] keyword of a call; [store_memory] has none. *)
Definition subject_override (c : call) : option string :=
  match c with
  | Store_memory _ _ _ => None
  | List_memories _ subject_id _ => subject_id
  | Search _ subject_id _ => subject_id
  | Score_capture _ _ subject_id => subject_id
  | List_capture_candidates _ _ subject_id => subject_id
  | Approve_capture_candidate _ _ subject_id => subject_id
  | Reject_capture_candidate _ _ subject_id => subject_id
  end.

(** Whether the keyword arguments of a call bind. *)
Definition binds (c : call) : bool :=
  match c with
  | Store_memory _ _ kwargs =>
      negb (collides ["self"; "content"; "pinned"] kwargs)
  | List_memories _ _ filters =>
      negb (collides ["self"; "limit"; "subject_id"] filters)
  | Search _ _ options =>
      negb (collides ["self"; "query"; "subject_id"] options)
  | _ => true
  end.

(** ** Vocabulary of the statements *)

(** The required keys of the two typed records, in the order in which the
    source subscripts them. *)
Definition score_result_required : list string :=
  ["status"; "recommended"; "score"].

Definition candidate_required : list string :=
  ["id"; "role"; "content"; "status"; "score"; "threshold"; "recommended"].

(** An item is a JSON object that holds every key of [keys]. *)
Definition has_keys (keys : list string) (item : value) : Prop :=
  ∃ d : dict, item = VDict d ∧ Forall (λ k, is_Some (d !! k)) keys.

(** An item is a JSON object that lacks some key of [keys]. *)
Definition lacks_key (keys : list string) (item : value) : Prop :=
  ∃ d : dict, item = VDict d ∧ Exists (λ k, d !! k = None) keys.

(** An item is a JSON object that holds none of the keys of [keys]. *)
Definition omits (keys : list string) (item : value) : Prop :=
  ∃ d : dict, item = VDict d ∧ Forall (λ k, d !! k = None) keys.

Definition is_object (item : value) : Prop := ∃ d : dict, item = VDict d.

(** Whether the character [c] occurs nowhere in [s]. *)
Fixpoint free_of (c : ascii) (s : string) : bool :=
  match s with
  | EmptyString => true
  | String a s' => negb (Ascii.eqb a c) && free_of c s'
  end.

(** The exceptions a decoder can raise. *)
Definition decode_error (e : exn) : Prop :=
  match e with
  | KeyError _ | AttributeError | TypeError => True
  | _ => False
  end.

(** What [_request] makes of the session's answer to the request it sent. *)
Definition settle (answer : option response) : result value :=
  match answer with
  | None => Raise RequestException
  | Some resp =>
      if 400 <=? status_code resp
      then Raise (RuntimeError
                    (request_failed_message (status_code resp) (text resp)))
      else
        match response_json resp with
        | None => Raise JSONDecodeError
        | Some payload => Ok (unwrap payload)
        end
  end.

Definition exchange (session : Session) (req : request) : result value :=
  settle (session req).

(** The session answered [resp] to every request the computation sent. *)
Definition answered {A} (self : CapsuleMemoryClient) (m : M A)
    (resp : response) : Prop :=
  ∀ req, req ∈ snd (run m) → _session self req = Some resp.

(** A successful response: a status code below 400 and a JSON body, of which
    [payload] is what is left once the envelope is removed. *)
Definition successful (resp : response) (payload : value) : Prop :=
  status_code resp < 400
  ∧ ∃ body, response_json resp = Some body ∧ unwrap body = payload.

(** The first key of [keys] that the object [d] lacks. *)
Definition first_missing (keys : list string) (d : dict) : option string :=
  find (λ k, negb (bool_decide (is_Some (d !! k)))) keys.

(** The per-field table of the two decoders: the value under the key, or
    the default of the field. *)
Definition score_result_of (d : dict) : CaptureScoreResult.t :=
  {| CaptureScoreResult.event_id := default VNone (d !! "eventId");
     CaptureScoreResult.candidate_id := default VNone (d !! "candidateId");
     CaptureScoreResult.status := default VNone (d !! "status");
     CaptureScoreResult.recommended := default VNone (d !! "recommended");
     CaptureScoreResult.score := default VNone (d !! "score");
     CaptureScoreResult.reasons := default (VList []) (d !! "reasons");
     CaptureScoreResult.memory_id := default VNone (d !! "memoryId") |}.

Definition candidate_of (d : dict) : CaptureCandidate.t :=
  {| CaptureCandidate.id := default VNone (d !! "id");
     CaptureCandidate.role := default VNone (d !! "role");
     CaptureCandidate.content := default VNone (d !! "content");
     CaptureCandidate.status := default VNone (d !! "status");
     CaptureCandidate.score := default VNone (d !! "score");
     CaptureCandidate.threshold := default VNone (d !! "threshold");
     CaptureCandidate.recommended := default VNone (d !! "recommended");
     CaptureCandidate.category := default (VStr "") (d !! "category");
     CaptureCandidate.reasons := default (VList []) (d !! "reasons");
     CaptureCandidate.metadata := default (VDict ∅) (d !! "metadata");
     CaptureCandidate.memory_id := default VNone (d !! "memoryId");
     CaptureCandidate.auto_accepted :=
       default (VBool false) (d !! "autoAccepted");
     CaptureCandidate.auto_decision_reason :=
       default VNone (d !! "autoDecisionReason");
     CaptureCandidate.created_at := default (VStr "") (d !! "createdAt");
     CaptureCandidate.updated_at := default (VStr "") (d !! "updatedAt") |}.

(** The record [r] holds the required fields of the object [item]. *)
Definition candidate_from (item : value) (r : CaptureCandidate.t) : Prop :=
  ∃ d : dict, item = VDict d
    ∧ d !! "id" = Some (CaptureCandidate.id r)
    ∧ d !! "role" = Some (CaptureCandidate.role r)
    ∧ d !! "content" = Some (CaptureCandidate.content r)
    ∧ d !! "status" = Some (CaptureCandidate.status r)
    ∧ d !! "score" = Some (CaptureCandidate.score r)
    ∧ d !! "threshold" = Some (CaptureCandidate.threshold r)
    ∧ d !! "recommended" = Some (CaptureCandidate.recommended r).

(** A client and sessions for the closed examples. *)
Definition answering (resp : response) : Session := λ _, Some resp.

Definition ok_response (payload : value) : response :=
  {| status_code := 200; text := ""; response_json := Some payload |}.

Definition demo_client (session : Session) : CapsuleMemoryClient :=
  __init__ session "https://capsule.test/" "key" "org" "proj" "alice" None.

(** An item with the seven required fields of a candidate and nothing else. *)
Definition demo_item (id : string) : dict :=
  {[ "id" := VStr id;
     "role" := VStr "user";
     "content" := VStr "likes tea";
     "status" := VStr "pending";
     "score" := VFloat float_0_6;
     "threshold" := VFloat float_0_6;
     "recommended" := VBool true ]}.

(** ** Vocabulary of the further properties *)

(** The string of [n] slashes. *)
Fixpoint slashes (n : nat) : string :=
  match n with
  | O => EmptyString
  | S n' => String "/" (slashes n')
  end.

(** Whether the last character of [s] is a slash. *)
Fixpoint ends_with_slash (s : string) : bool :=
  match s with
  | EmptyString => false
  | String c s' =>
      match s' with
      | EmptyString => Ascii.eqb c "/"
      | String _ _ => ends_with_slash s'
      end
  end.

(** [path] without its first character when that is a slash. *)
Definition without_leading_slash (path : string) : string :=
  match path with
  | String c rest => if Ascii.eqb c "/" then rest else path
  | EmptyString => path
  end.

(** The shape every request of the client has: the fixed timeout, a URL
    under [/v1/memories] of the base, and either a GET with query parameters
    and no body or a POST with a JSON body and no query parameters. *)
Definition well_shaped (self : CapsuleMemoryClient) (req : request) : Prop :=
  timeout req = 30
  ∧ (∃ rest, url req = _base self +:+ "/v1/memories" +:+ rest)
  ∧ ((method req = "GET" ∧ json req = None ∧ is_Some (params req))
     ∨ (method req = "POST" ∧ is_Some (json req) ∧ params req = None)).

(** The methods that return what [_request] returns. *)
Definition passthrough (c : call) : bool :=
  match c with
  | Score_capture _ _ _ | List_capture_candidates _ _ _ => false
  | _ => true
  end.

(** All the keys the two decoders read. *)
Definition score_result_keys : list string :=
  ["eventId"; "candidateId"; "status"; "recommended"; "score"; "reasons";
   "memoryId"].

Definition candidate_keys : list string :=
  ["id"; "role"; "content"; "status"; "score"; "threshold"; "recommended";
   "category"; "reasons"; "metadata"; "memoryId"; "autoAccepted";
   "autoDecisionReason"; "createdAt"; "updatedAt"].

(** The record [r] holds the fields of the object [d]: the value under each
    required key, and the value or the default for each optional key. *)
Definition score_result_from (d : dict) (r : CaptureScoreResult.t) : Prop :=
  d !! "status" = Some (CaptureScoreResult.status r)
  ∧ d !! "recommended" = Some (CaptureScoreResult.recommended r)
  ∧ d !! "score" = Some (CaptureScoreResult.score r)
  ∧ CaptureScoreResult.event_id r = default VNone (d !! "eventId")
  ∧ CaptureScoreResult.candidate_id r = default VNone (d !! "candidateId")
  ∧ CaptureScoreResult.reasons r = default (VList []) (d !! "reasons")
  ∧ CaptureScoreResult.memory_id r = default VNone (d !! "memoryId").

(** Each optional field of a score result that the object [d] lacks has its
    default in the record [r]. *)
Definition score_result_defaults (d : dict) (r : CaptureScoreResult.t)
    : Prop :=
  (d !! "eventId" = None → CaptureScoreResult.event_id r = VNone)
  ∧ (d !! "candidateId" = None → CaptureScoreResult.candidate_id r = VNone)
  ∧ (d !! "reasons" = None → CaptureScoreResult.reasons r = VList [])
  ∧ (d !! "memoryId" = None → CaptureScoreResult.memory_id r = VNone).

(** Each optional field of a candidate that the object [d] lacks has its
    default in the record [r]. *)
Definition candidate_defaults (d : dict) (r : CaptureCandidate.t) : Prop :=
  (d !! "category" = None → CaptureCandidate.category r = VStr "")
  ∧ (d !! "reasons" = None → CaptureCandidate.reasons r = VList [])
  ∧ (d !! "metadata" = None → CaptureCandidate.metadata r = VDict ∅)
  ∧ (d !! "memoryId" = None → CaptureCandidate.memory_id r = VNone)
  ∧ (d !! "autoAccepted" = None →
     CaptureCandidate.auto_accepted r = VBool false)
  ∧ (d !! "autoDecisionReason" = None →
     CaptureCandidate.auto_decision_reason r = VNone)
  ∧ (d !! "createdAt" = None → CaptureCandidate.created_at r = VStr "")
  ∧ (d !! "updatedAt" = None → CaptureCandidate.updated_at r = VStr "").

(** The JSON values that are neither a container nor a string. *)
Definition is_scalar (v : value) : Prop :=
  match v with
  | VNone | VBool _ | VInt _ | VFloat _ => True
  | VStr _ | VList _ | VDict _ => False
  end.

(** A result object with the three required fields and an event id. *)
Definition demo_result (event : string) : dict :=
  {[ "eventId" := VStr event;
     "status" := VStr "pending";
     "recommended" := VBool true;
     "score" := VFloat float_0_6 ]}.

(** * Properties *)

(** ** The request layer *)

Lemma _request_eq self method path json params subject_id wire :
  _request self method path json params subject_id wire =
  let req :=
    {| method := method;
       url := _base self +:+
              (if startswith_slash path then path else "/" +:+ path);
       headers := _headers self subject_id;
       json := json;
       params := params;
       timeout := 30 |} in
  (exchange (_session self) req, wire ++ [req]).
Proof.
  unfold _request, exchange, settle, session_request, mbind, M_bind, raise,
    mret, M_ret.
  cbn zeta.
  destruct (_session self _) as [resp|]; [|reflexivity].
  destruct (400 <=? status_code resp); [reflexivity|].
  destruct (response_json resp); reflexivity.
Qed.

Lemma bind_Ok {A B} (f : A → result B) (m : result A) (b : B) :
  m ≫= f = Ok b → ∃ a, m = Ok a ∧ f a = Ok b.
Proof. destruct m as [a|e]; simpl; [eauto | discriminate]. Qed.

Lemma bind_Raise {A B} (f : A → result B) (m : result A) (e : exn) :
  m ≫= f = Raise e → m = Raise e ∨ ∃ a, m = Ok a ∧ f a = Raise e.
Proof. destruct m as [a|e']; simpl; [eauto | intros [= ->]; left; reflexivity]. Qed.

(** ** Decoders raise decoding errors only *)

Lemma py_get_error v key default e :
  py_get v key default = Raise e → decode_error e.
Proof.
  destruct v; simpl; try (intros [= <-]; exact I).
  destruct (d !! key); discriminate.
Qed.

Lemma py_getitem_error v key e :
  py_getitem v key = Raise e → decode_error e.
Proof.
  destruct v; simpl; try (intros [= <-]; exact I).
  destruct (d !! key); [discriminate | intros [= <-]; exact I].
Qed.

Lemma py_iter_error v e : py_iter v = Raise e → decode_error e.
Proof. destruct v; simpl; try discriminate; intros [= <-]; exact I. Qed.

Lemma traverse_error {A B} (f : A → result B) (l : list A) e :
  (∀ a e', f a = Raise e' → decode_error e') →
  traverse f l = Raise e → decode_error e.
Proof.
  intros Hf. induction l as [|a l IH]; simpl; [discriminate|].
  intros H. apply bind_Raise in H as [H | (b & _ & H)]; [eauto|].
  apply bind_Raise in H as [H | (bs & _ & H)]; [eauto | discriminate].
Qed.

Ltac decode_error_chain H :=
  repeat (apply bind_Raise in H as [H | (? & _ & H)];
          [ first [ apply py_get_error in H
                  | apply py_getitem_error in H
                  | apply py_iter_error in H ]; assumption | ]).

Lemma decode_score_result_error entry e :
  decode_score_result entry = Raise e → decode_error e.
Proof. unfold decode_score_result. intros H. decode_error_chain H. discriminate. Qed.

Lemma decode_candidate_error item e :
  decode_candidate item = Raise e → decode_error e.
Proof. unfold decode_candidate. intros H. decode_error_chain H. discriminate. Qed.

Lemma decode_score_response_error threshold payload e :
  decode_score_response threshold payload = Raise e → decode_error e.
Proof.
  unfold decode_score_response. intros H. decode_error_chain H.
  apply bind_Raise in H as [H | (? & _ & H)];
    [ eapply traverse_error; [apply decode_score_result_error | exact H] | ].
  decode_error_chain H. discriminate.
Qed.

Lemma decode_candidates_error payload e :
  decode_candidates payload = Raise e → decode_error e.
Proof.
  unfold decode_candidates. intros H. decode_error_chain H.
  eapply traverse_error; [apply decode_candidate_error | exact H].
Qed.

(** ** Every public method is one exchange with the session *)

Lemma M_fmap_eq {A B} (f : A → B) (m : M A) wire :
  (f <$> m) wire = (fst (m wire) ≫= (λ a, Ok (f a)), snd (m wire)).
Proof. unfold fmap, M_fmap. destruct (m wire) as [[a|e] w]; reflexivity. Qed.

Lemma M_bind_lift {A B} (g : A → result B) (m : M A) wire :
  (m ≫= (λ a, lift (g a))) wire = (fst (m wire) ≫= g, snd (m wire)).
Proof. unfold mbind at 1, M_bind. destruct (m wire) as [[a|e] w]; reflexivity. Qed.

Lemma bind_assoc_result {A B C} (m : result A) (g : A → result B)
    (h : B → result C) :
  (m ≫= g) ≫= h = m ≫= (λ a, g a ≫= h).
Proof. destruct m; reflexivity. Qed.

Lemma bind_keywords_eq {A} names extra (m : M A) wire :
  (bind_keywords names extra ≫= (λ _, m)) wire =
  if collides names extra then (Raise TypeError, wire) else m wire.
Proof.
  unfold bind_keywords, mbind, M_bind.
  destruct (collides names extra); reflexivity.
Qed.

(** A call whose keywords do not bind raises [TypeError] and sends nothing;
    any other call sends one request, with the headers of [_headers], and
    returns a decoding of what [_request] made of the answer. *)
Lemma invoke_shape self c wire :
  if binds c
  then ∃ (req : request) (k : value → result returned),
         invoke self c wire = (exchange (_session self) req ≫= k, wire ++ [req])
         ∧ headers req = _headers self (subject_override c)
         ∧ ∀ v e, k v = Raise e → decode_error e
  else invoke self c wire = (Raise TypeError, wire).
Proof.
  destruct c; cbn [binds invoke subject_override];
    rewrite M_fmap_eq;
    unfold store_memory, list_memories, search, score_capture,
      list_capture_candidates, approve_capture_candidate,
      reject_capture_candidate;
    rewrite ?bind_keywords_eq, ?M_bind_lift;
    try (destruct (collides _ _); cbn [negb]; [reflexivity|]);
    rewrite _request_eq; cbn [fst snd]; cbn zeta;
    try rewrite bind_assoc_result;
    (eexists _, _; split; [reflexivity|]; split; [reflexivity|]);
    cbn beta; intros v e H; try discriminate H.
  - apply bind_Raise in H as [H | (? & _ & H)]; [|discriminate].
    eapply decode_score_response_error, H.
  - apply bind_Raise in H as [H | (? & _ & H)]; [|discriminate].
    eapply decode_candidates_error, H.
Qed.

(** ** The message of the error raised on a failed request *)

Lemma append_cancel_l (p a b : string) : p +:+ a = p +:+ b → a = b.
Proof. induction p as [|c p IH]; simpl; [auto | intros [= H]; auto]. Qed.

Lemma split_at_char (c : ascii) (a b r1 r2 : string) :
  free_of c a = true → free_of c b = true →
  a +:+ String c r1 = b +:+ String c r2 → a = b ∧ r1 = r2.
Proof.
  revert b. induction a as [|x a IH]; intros [|y b]; simpl.
  - intros _ _ [= ->]. auto.
  - intros _ Hb [= <- _]. rewrite Ascii.eqb_refl in Hb. discriminate.
  - intros Ha _ [= -> _]. rewrite Ascii.eqb_refl in Ha. discriminate.
  - intros Ha Hb [= -> H].
    apply andb_prop in Ha as [_ Ha]. apply andb_prop in Hb as [_ Hb].
    destruct (IH b Ha Hb H) as [-> ->]. auto.
Qed.

Lemma string_of_uint_free (d : Decimal.uint) :
  free_of ")" (NilEmpty.string_of_uint d) = true.
Proof. induction d; simpl; auto. Qed.

Lemma str_int_free (n : Z) : free_of ")" (str_int n) = true.
Proof.
  unfold str_int. destruct (Z.to_int n); simpl; apply string_of_uint_free.
Qed.

Lemma str_int_inj (m n : Z) : str_int m = str_int n → m = n.
Proof.
  unfold str_int. intros H. apply DecimalZ.to_int_inj.
  apply (f_equal NilEmpty.int_of_string) in H.
  rewrite !NilEmpty.isi in H. congruence.
Qed.

(** The message determines the status code and the body text it was
    formatted from. *)
Lemma request_failed_message_inj status text status' text' :
  request_failed_message status text = request_failed_message status' text' →
  status = status' ∧ text = text'.
Proof.
  unfold request_failed_message. intros H.
  apply append_cancel_l in H. cbn [String.append] in H.
  apply split_at_char in H as [Hs [= Ht]]; try apply str_int_free.
  split; [apply str_int_inj, Hs | exact Ht].
Qed.

(** ** Headers *)

(** C2 (as amended).  For every client built by the constructor and every
    public method call, a call whose keyword arguments bind sends exactly one
    request (any other call sends none), and every request sent carries
    exactly five headers: [Content-Type: application/json], the API key, the
    org id and the project id given to the constructor, and a subject header
    that is the per-call [subject_id] when one is given and is not the empty
    string, and the constructor's default subject id when no [subject_id] is
    given or the empty string is given. *)
Theorem headers_of_every_call
    (requests_Session : Session)
    (base_url api_key org_id project_id default_subject_id : string)
    (session : option Session) (c : call) :
  let self :=
    __init__ requests_Session base_url api_key org_id project_id
      default_subject_id session in
  let sent := snd (run (invoke self c)) in
  ∃ subject : string,
    length sent = (if binds c then 1%nat else 0%nat)
    ∧ Forall (λ req,
        headers req =
          {[ "Content-Type" := "application/json";
             "X-Capsule-Key" := api_key;
             "X-Capsule-Org" := org_id;
             "X-Capsule-Project" := project_id;
             "X-Capsule-Subject" := subject ]}) sent
    ∧ (∀ s, subject_override c = Some s → s ≠ "" → subject = s)
    ∧ (subject_override c = None ∨ subject_override c = Some "" →
       subject = default_subject_id).
Proof.
  intros self sent.
  exists (py_or (subject_override c) default_subject_id).
  pose proof (invoke_shape self c []) as Hshape.
  subst sent. unfold run.
  destruct (binds c).
  - destruct Hshape as (req & k & -> & Hh & _). cbn [snd app length].
    split; [reflexivity|]. split; [repeat constructor; exact Hh|].
    split.
    + intros s -> Hs. destruct s; [congruence | reflexivity].
    + intros [-> | ->]; reflexivity.
  - rewrite Hshape. cbn [snd length].
    split; [reflexivity|]. split; [constructor|].
    split.
    + intros s -> Hs. destruct s; [congruence | reflexivity].
    + intros [-> | ->]; reflexivity.
Qed.

(** C2 (as stated) fails: [search(query="q", subject_id="")] sends the
    default subject of the client, not the empty override. *)
Lemma empty_subject_override_is_dropped :
  ∃ req : request,
    snd (run (invoke (demo_client (answering (ok_response VNone)))
                (Search "q" (Some "") ∅))) = [req]
    ∧ headers req !! "X-Capsule-Subject" = Some "alice"
    ∧ headers req !! "X-Capsule-Subject" ≠ Some "".
Proof.
  eexists. split; [reflexivity|].
  split; [vm_compute; reflexivity | vm_compute; discriminate].
Qed.

(** ** Failed requests *)

(** C3.  For every public method call: if the response to the request the
    call sent has a status code of 400 or more (in particular one in
    [400, 599]), the call raises the error of [_request], whose message is
    formatted from exactly that status code and exactly the response text
    (the message determines both), and returns no value; if the status code
    is below 400, the call does not raise that error. *)
Theorem failed_request_raises self c res wire req resp :
  run (invoke self c) = (res, wire) →
  req ∈ wire →
  _session self req = Some resp →
  (400 ≤ status_code resp →
     res = Raise (RuntimeError
                    (request_failed_message (status_code resp) (text resp)))
     ∧ (∀ v, res ≠ Ok v)
     ∧ ∀ status' text',
         res = Raise (RuntimeError (request_failed_message status' text')) →
         status' = status_code resp ∧ text' = text resp)
  ∧ (status_code resp < 400 → ∀ msg, res ≠ Raise (RuntimeError msg)).
Proof.
  intros Hrun Hin Hresp. unfold run in Hrun.
  pose proof (invoke_shape self c []) as Hshape.
  destruct (binds c).
  - destruct Hshape as (req0 & k & Heq & _ & Hk).
    rewrite Heq in Hrun. injection Hrun as <- <-.
    apply list_elem_of_singleton in Hin as ->.
    unfold exchange, settle. rewrite Hresp. split.
    + intros Hge. apply Z.leb_le in Hge. rewrite Hge. cbn.
      split; [reflexivity|]. split; [discriminate|].
      intros status' text' H.
      assert (request_failed_message status' text' =
              request_failed_message (status_code resp) (text resp)) as Hm
        by congruence.
      apply request_failed_message_inj in Hm as [-> ->]. auto.
    + intros Hlt msg. apply Z.leb_gt in Hlt. rewrite Hlt.
      destruct (response_json resp) as [payload|]; [|discriminate].
      cbn. intros H. apply Hk in H. exact H.
  - rewrite Hshape in Hrun. injection Hrun as <- <-.
    apply elem_of_nil in Hin as [].
Qed.

Lemma failed_request_raises_witness :
  fst (run (invoke
         (demo_client (answering
            {| status_code := 404; text := "no such memory";
               response_json := None |}))
         (Reject_capture_candidate "abc123" None None))) =
  Raise (RuntimeError "Capsule request failed (404): no such memory").
Proof.
  eapply failed_request_raises with
    (resp := {| status_code := 404; text := "no such memory";
                response_json := None |}).
  - apply surjective_pairing.
  - cbn. apply list_elem_of_here.
  - reflexivity.
  - cbn. lia.
Defined.

(** ** The envelope *)

Lemma exchange_successful session req resp payload :
  session req = Some resp → successful resp payload →
  exchange session req = Ok payload.
Proof.
  intros Hresp (Hlt & body & Hjson & <-).
  unfold exchange, settle. rewrite Hresp.
  apply Z.leb_gt in Hlt. rewrite Hlt, Hjson. reflexivity.
Qed.

(** C4.  [_request], through which every public method goes: when the
    response to the request it sent has a status code below 400 and a JSON
    body, then a body that is a mapping with the key [data] yields exactly
    the value under [data] (whatever it is), and a body of any other shape
    (not a mapping, or a mapping without [data]) is returned unchanged. *)
Theorem envelope_unwrapping self method path json params subject_id
    res wire req resp payload :
  run (_request self method path json params subject_id) = (res, wire) →
  req ∈ wire →
  _session self req = Some resp →
  status_code resp < 400 →
  response_json resp = Some payload →
  (∀ d v, payload = VDict d → d !! "data" = Some v → res = Ok v)
  ∧ ((∀ d, payload = VDict d → d !! "data" = None) → res = Ok payload).
Proof.
  unfold run. rewrite _request_eq. cbn zeta.
  intros [= <- <-] Hin Hresp Hlt Hjson.
  apply list_elem_of_singleton in Hin as ->.
  erewrite exchange_successful; [|exact Hresp|split; eauto].
  split.
  - intros d v -> Hd. cbn. rewrite Hd. reflexivity.
  - intros Hno. destruct payload; try reflexivity.
    cbn. rewrite (Hno d eq_refl). reflexivity.
Qed.

Lemma envelope_unwrapping_witness :
  fst (run (_request
         (demo_client (answering
            (ok_response (VDict {[ "data" := VNone; "meta" := VInt 1 ]}))))
         "GET" "v1/memories" None None None)) = Ok VNone.
Proof.
  edestruct (envelope_unwrapping
               (demo_client (answering
                  (ok_response
                     (VDict {[ "data" := VNone; "meta" := VInt 1 ]}))))
               "GET" "v1/memories" None None None) as [Hdata _].
  - apply surjective_pairing.
  - cbn. apply list_elem_of_here.
  - reflexivity.
  - cbn. lia.
  - reflexivity.
  - apply (Hdata _ VNone eq_refl). vm_compute. reflexivity.
Defined.

(** ** Request bodies *)

Lemma collides_false names (extra : dict) name :
  collides names extra = false → name ∈ names → extra !! name = None.
Proof.
  unfold collides. intros H Hin.
  apply eq_None_not_Some. intros Hsome.
  assert (existsb (λ n, bool_decide (is_Some (extra !! n))) names = true) as E.
  { apply existsb_exists. exists name. split.
    - apply list_elem_of_In, Hin.
    - apply bool_decide_eq_true, Hsome. }
  congruence.
Qed.

Lemma dict_display_base (base extra : dict) key :
  extra !! key = None → dict_display base extra !! key = base !! key.
Proof. intros H. unfold dict_display. apply lookup_union_r, H. Qed.

Lemma dict_display_extra (base extra : dict) key v :
  extra !! key = Some v → dict_display base extra !! key = Some v.
Proof. intros H. unfold dict_display. apply lookup_union_Some_l, H. Qed.

Lemma store_memory_eq self content pinned kwargs wire :
  store_memory self content pinned kwargs wire =
  if collides ["self"; "content"; "pinned"] kwargs then (Raise TypeError, wire)
  else _request self "POST" "/v1/memories"
         (Some (dict_display
                  {[ "content" := VStr content; "pinned" := VBool pinned ]}
                  kwargs))
         None None wire.
Proof. unfold store_memory. apply bind_keywords_eq. Qed.

Lemma search_eq self query subject_id options wire :
  search self query subject_id options wire =
  if collides ["self"; "query"; "subject_id"] options then (Raise TypeError, wire)
  else _request self "POST" "/v1/memories/search"
         (Some (dict_display {[ "query" := VStr query ]} options))
         None subject_id wire.
Proof. unfold search. apply bind_keywords_eq. Qed.

(** C5.  For every call of [store_memory] and of [search], whatever the
    extra keyword mapping: every request body sent maps [content] and
    [pinned] (for [search]: [query]) to the explicitly passed arguments and
    holds every extra field; one body is sent when the extra mapping
    repeats no parameter name, and none when it repeats one (the call is
    then rejected while its keywords are bound): no body ever holds an
    extra field in the place of an explicit one. *)
Theorem explicit_fields_in_body self content pinned kwargs
    query subject_id options :
  let stored := snd (run (store_memory self content pinned kwargs)) in
  let searched := snd (run (search self query subject_id options)) in
  (∀ req, req ∈ stored →
     ∃ body, json req = Some body
       ∧ body !! "content" = Some (VStr content)
       ∧ body !! "pinned" = Some (VBool pinned)
       ∧ ∀ k v, kwargs !! k = Some v → body !! k = Some v)
  ∧ (collides ["self"; "content"; "pinned"] kwargs = false →
     length stored = 1%nat)
  ∧ (collides ["self"; "content"; "pinned"] kwargs = true → stored = [])
  ∧ (∀ req, req ∈ searched →
       ∃ body, json req = Some body
         ∧ body !! "query" = Some (VStr query)
         ∧ ∀ k v, options !! k = Some v → body !! k = Some v)
  ∧ (collides ["self"; "query"; "subject_id"] options = false →
     length searched = 1%nat)
  ∧ (collides ["self"; "query"; "subject_id"] options = true → searched = []).
Proof.
  intros stored searched. subst stored searched. unfold run.
  rewrite store_memory_eq, search_eq.
  split; [|split; [|split; [|split; [|split]]]].
  - destruct (collides _ kwargs) eqn:Hc.
    { intros req Hin. apply elem_of_nil in Hin as []. }
    rewrite _request_eq. cbn zeta. cbn [snd app].
    intros req Hin. apply list_elem_of_singleton in Hin as ->.
    eexists. split; [reflexivity|].
    assert (kwargs !! "content" = None) as Hcontent
      by (eapply collides_false; [exact Hc | set_solver]).
    assert (kwargs !! "pinned" = None) as Hpinned
      by (eapply collides_false; [exact Hc | set_solver]).
    split; [|split].
    + rewrite dict_display_base by exact Hcontent. by simplify_map_eq.
    + rewrite dict_display_base by exact Hpinned. by simplify_map_eq.
    + intros k v Hk. apply dict_display_extra, Hk.
  - intros ->. rewrite _request_eq. reflexivity.
  - intros ->. reflexivity.
  - destruct (collides _ options) eqn:Hc.
    { intros req Hin. apply elem_of_nil in Hin as []. }
    rewrite _request_eq. cbn zeta. cbn [snd app].
    intros req Hin. apply list_elem_of_singleton in Hin as ->.
    eexists. split; [reflexivity|].
    assert (options !! "query" = None) as Hquery
      by (eapply collides_false; [exact Hc | set_solver]).
    split.
    + rewrite dict_display_base by exact Hquery. by simplify_map_eq.
    + intros k v Hk. apply dict_display_extra, Hk.
  - intros ->. rewrite _request_eq. reflexivity.
  - intros ->. reflexivity.
Qed.

Lemma explicit_fields_in_body_witness :
  ∃ req body,
    snd (run (store_memory (demo_client (answering (ok_response VNone)))
                "hello" false {[ "source" := VStr "cli" ]})) = [req]
    ∧ json req = Some body
    ∧ body !! "content" = Some (VStr "hello")
    ∧ body !! "pinned" = Some (VBool false)
    ∧ body !! "source" = Some (VStr "cli").
Proof.
  destruct (explicit_fields_in_body
              (demo_client (answering (ok_response VNone)))
              "hello" false {[ "source" := VStr "cli" ]} "" None ∅)
    as (Hstored & _).
  eexists. cbn in Hstored.
  destruct (Hstored _ (list_elem_of_here _ _)) as (body & Hjson & Hc & Hp & Hx).
  exists body. split; [reflexivity|]. split; [exact Hjson|].
  split; [exact Hc|]. split; [exact Hp|].
  apply Hx. vm_compute. reflexivity.
Defined.

(** C8.  [store_memory(content="hello", pinned=True)]: one request is sent,
    a POST to [/v1/memories] (after the base URL) whose JSON body is exactly
    [{"content": "hello", "pinned": true}]; and when the response is
    successful and its body is a mapping with a [data] key, the call returns
    the value under [data], unmodified. *)
Theorem store_memory_round_trip self resp (d : dict) data :
  answered self (store_memory self "hello" true ∅) resp →
  status_code resp < 400 →
  response_json resp = Some (VDict d) →
  d !! "data" = Some data →
  run (store_memory self "hello" true ∅) =
  (Ok data,
   [ {| method := "POST";
        url := _base self +:+ "/v1/memories";
        headers := _headers self None;
        json := Some {[ "content" := VStr "hello"; "pinned" := VBool true ]};
        params := None;
        timeout := 30 |} ]).
Proof.
  unfold answered, run. rewrite store_memory_eq.
  replace (collides ["self"; "content"; "pinned"] ∅) with false by reflexivity.
  rewrite _request_eq. cbn zeta. cbn [snd app startswith_slash Ascii.eqb].
  intros Hans Hlt Hjson Hdata.
  unfold dict_display. rewrite (left_id_L ∅ (∪)).
  erewrite exchange_successful.
  - reflexivity.
  - apply Hans, list_elem_of_here.
  - split; [exact Hlt|]. exists (VDict d). split; [exact Hjson|].
    cbn. rewrite Hdata. reflexivity.
Qed.

Lemma store_memory_round_trip_witness :
  run (store_memory
         (demo_client (answering
            (ok_response (VDict {[ "data" := VDict {[ "id" := VStr "m1" ]} ]}))))
         "hello" true ∅) =
  (Ok (VDict {[ "id" := VStr "m1" ]}),
   [ {| method := "POST";
        url := "https://capsule.test/v1/memories";
        headers :=
          {[ "Content-Type" := "application/json";
             "X-Capsule-Key" := "key";
             "X-Capsule-Org" := "org";
             "X-Capsule-Project" := "proj";
             "X-Capsule-Subject" := "alice" ]};
        json := Some {[ "content" := VStr "hello"; "pinned" := VBool true ]};
        params := None;
        timeout := 30 |} ]).
Proof.
  apply (store_memory_round_trip
           (demo_client (answering
              (ok_response
                 (VDict {[ "data" := VDict {[ "id" := VStr "m1" ]} ]}))))
           (ok_response (VDict {[ "data" := VDict {[ "id" := VStr "m1" ]} ]}))
           {[ "data" := VDict {[ "id" := VStr "m1" ]} ]}).
  - intros req _. reflexivity.
  - cbn. lia.
  - reflexivity.
  - vm_compute. reflexivity.
Defined.

(** C9.  [approve_capture_candidate("abc123")] without overrides sends one
    request: a POST to [/v1/memories/capture/abc123/approve] (after the base
    URL) whose JSON body is exactly [{"memory": null}]. *)
Theorem approve_without_overrides self subject_id :
  snd (run (approve_capture_candidate self "abc123" None subject_id)) =
  [ {| method := "POST";
       url := _base self +:+ "/v1/memories/capture/abc123/approve";
       headers := _headers self subject_id;
       json := Some {[ "memory" := VNone ]};
       params := None;
       timeout := 30 |} ].
Proof.
  unfold run, approve_capture_candidate. rewrite _request_eq. reflexivity.
Qed.

(** ** Decoding one object *)

Lemma py_get_dict (d : dict) key default_ :
  py_get (VDict d) key default_ = Ok (default default_ (d !! key)).
Proof. unfold py_get. destruct (d !! key); reflexivity. Qed.

Lemma py_getitem_dict (d : dict) key :
  py_getitem (VDict d) key =
  match d !! key with
  | Some x => Ok x
  | None => Raise (KeyError key)
  end.
Proof. reflexivity. Qed.

Ltac next_required d key :=
  rewrite (py_getitem_dict d key);
  destruct (d !! key) eqn:?; cbn [mbind result_bind default];
  [ | reflexivity ].

(** An object decodes to the record of the per-field table, unless it lacks
    a required key: then the first one lacked, in the order of the source,
    is the [KeyError]. *)
Lemma decode_score_result_object (d : dict) :
  decode_score_result (VDict d) =
  match first_missing score_result_required d with
  | Some key => Raise (KeyError key)
  | None => Ok (score_result_of d)
  end.
Proof.
  unfold decode_score_result, score_result_of, first_missing,
    score_result_required.
  rewrite !py_get_dict. cbn [mbind result_bind find].
  next_required d "status". next_required d "recommended".
  next_required d "score". reflexivity.
Qed.

Lemma decode_candidate_object (d : dict) :
  decode_candidate (VDict d) =
  match first_missing candidate_required d with
  | Some key => Raise (KeyError key)
  | None => Ok (candidate_of d)
  end.
Proof.
  unfold decode_candidate, candidate_of, first_missing, candidate_required.
  rewrite !py_get_dict. cbn [find].
  next_required d "id". next_required d "role". next_required d "content".
  next_required d "status". next_required d "score".
  next_required d "threshold". next_required d "recommended".
  reflexivity.
Qed.

Lemma first_missing_None keys (d : dict) :
  Forall (λ k, is_Some (d !! k)) keys → first_missing keys d = None.
Proof.
  unfold first_missing. induction 1 as [|k keys Hk _ IH]; [reflexivity|].
  cbn [find]. rewrite bool_decide_eq_true_2 by exact Hk. exact IH.
Qed.

Lemma first_missing_Some keys (d : dict) :
  Exists (λ k, d !! k = None) keys →
  ∃ key, first_missing keys d = Some key ∧ key ∈ keys ∧ d !! key = None.
Proof.
  unfold first_missing. induction keys as [|k keys IH]; intros Hex.
  - inversion Hex.
  - cbn [find]. destruct (d !! k) as [v|] eqn:Hk.
    + rewrite bool_decide_eq_true_2 by eauto. cbn [negb].
      apply Exists_cons in Hex as [Hex | Hex]; [congruence|].
      destruct (IH Hex) as (key & Hfind & Hin & Hnone).
      exists key. split; [exact Hfind|]. split; [|exact Hnone].
      apply list_elem_of_further, Hin.
    + rewrite bool_decide_eq_false_2 by (intros [? ?]; congruence).
      cbn [negb]. exists k. split; [reflexivity|].
      split; [apply list_elem_of_here | exact Hk].
Qed.

(** ** Decoding a list of objects *)

Lemma traverse_Ok {A B} (f : A → result B) (g : A → B) (l : list A) :
  Forall (λ a, f a = Ok (g a)) l → traverse f l = Ok (g <$> l).
Proof.
  induction 1 as [|a l Ha _ IH]; [reflexivity|].
  cbn [traverse]. rewrite Ha, IH. reflexivity.
Qed.

(** As soon as one element fails, the traversal fails, with the error of
    the first element that fails. *)
Lemma traverse_Raise {A B} (f : A → result B) (l : list A) :
  Exists (λ a, ∃ e, f a = Raise e) l →
  ∃ a e, a ∈ l ∧ f a = Raise e ∧ traverse f l = Raise e.
Proof.
  induction l as [|a l IH]; intros Hex; [inversion Hex|].
  cbn [traverse]. destruct (f a) as [b|e] eqn:Ha.
  - apply Exists_cons in Hex as [[e He] | Hex]; [congruence|].
    destruct (IH Hex) as (a' & e & Hin & Hfa & Htr).
    exists a', e. split; [apply list_elem_of_further, Hin|].
    split; [exact Hfa|]. rewrite Htr. reflexivity.
  - exists a, e. split; [apply list_elem_of_here|]. split; [exact Ha|reflexivity].
Qed.

(** ** The two typed methods are [_request] followed by a decoder *)

Lemma score_capture_run self events threshold subject_id resp payload :
  answered self (score_capture self events threshold subject_id) resp →
  successful resp payload →
  fst (run (score_capture self events threshold subject_id)) =
  decode_score_response threshold payload.
Proof.
  unfold answered, run, score_capture.
  rewrite M_bind_lift, _request_eq. cbn zeta. cbn [fst snd app].
  intros Hans Hok.
  erewrite exchange_successful; [reflexivity | | exact Hok].
  apply Hans, list_elem_of_here.
Qed.

Lemma list_capture_candidates_run self status limit subject_id resp payload :
  answered self (list_capture_candidates self status limit subject_id) resp →
  successful resp payload →
  fst (run (list_capture_candidates self status limit subject_id)) =
  decode_candidates payload.
Proof.
  unfold answered, run, list_capture_candidates.
  rewrite M_bind_lift, _request_eq. cbn zeta. cbn [fst snd app].
  intros Hans Hok.
  erewrite exchange_successful; [reflexivity | | exact Hok].
  apply Hans, list_elem_of_here.
Qed.

(** ** Candidates *)

Lemma decode_candidates_objects (p : dict) (ds : list dict) :
  p !! "items" = Some (VList (VDict <$> ds)) →
  Forall (λ d, Forall (λ k, is_Some (d !! k)) candidate_required) ds →
  decode_candidates (VDict p) = Ok (candidate_of <$> ds).
Proof.
  intros Hitems Hreq. unfold decode_candidates.
  rewrite py_get_dict, Hitems. cbn.
  rewrite (traverse_Ok _ (λ item,
             match item with
             | VDict d => candidate_of d
             | _ => candidate_of ∅
             end)).
  - rewrite <- list_fmap_compose. reflexivity.
  - apply Forall_fmap. eapply Forall_impl; [exact Hreq|].
    intros d Hd. change (decode_candidate (VDict d) = Ok (candidate_of d)).
    rewrite decode_candidate_object, first_missing_None; auto.
Qed.

Lemma objects_of (P : dict → Prop) (items : list value) :
  Forall (λ item, ∃ d : dict, item = VDict d ∧ P d) items →
  ∃ ds : list dict, items = VDict <$> ds ∧ Forall P ds.
Proof.
  induction 1 as [|item items (d & -> & Hd) _ (ds & -> & Hds)].
  - exists []. split; [reflexivity | constructor].
  - exists (d :: ds). split; [reflexivity | constructor; assumption].
Qed.

Lemma candidate_from_object (d : dict) :
  Forall (λ k, is_Some (d !! k)) candidate_required →
  candidate_from (VDict d) (candidate_of d).
Proof.
  intros Hreq.
  assert (∀ k, k ∈ candidate_required →
            d !! k = Some (default VNone (d !! k))) as Hget.
  { intros k Hk. rewrite Forall_forall in Hreq.
    destruct (Hreq k Hk) as [v ->]. reflexivity. }
  exists d. split; [reflexivity|].
  unfold candidate_of. cbn.
  repeat split; apply Hget; unfold candidate_required; set_solver.
Qed.

(** C6.  [list_capture_candidates], on a successful response whose payload
    holds under [items] an array of N objects that each have every required
    field and lack [reasons], [metadata] and [autoAccepted]: the call
    returns N records, the i-th one built from the i-th object, and every
    record has reasons [[]], metadata [{}] and auto_accepted [False]. *)
Theorem candidates_default_fields self status limit subject_id resp
    (p : dict) items :
  answered self (list_capture_candidates self status limit subject_id) resp →
  successful resp (VDict p) →
  p !! "items" = Some (VList items) →
  Forall (has_keys candidate_required) items →
  Forall (omits ["reasons"; "metadata"; "autoAccepted"]) items →
  ∃ records,
    fst (run (list_capture_candidates self status limit subject_id)) =
      Ok records
    ∧ length records = length items
    ∧ Forall2 candidate_from items records
    ∧ Forall (λ r,
        CaptureCandidate.reasons r = VList []
        ∧ CaptureCandidate.metadata r = VDict ∅
        ∧ CaptureCandidate.auto_accepted r = VBool false) records.
Proof.
  intros Hans Hok Hitems Hreq Hopt.
  rewrite (list_capture_candidates_run _ _ _ _ _ _ Hans Hok).
  assert (Forall (λ item, ∃ d : dict, item = VDict d ∧
            (Forall (λ k, is_Some (d !! k)) candidate_required
             ∧ Forall (λ k, d !! k = None)
                 ["reasons"; "metadata"; "autoAccepted"])) items) as Hboth.
  { pose proof (proj2 (Forall_and _ _) (conj Hreq Hopt)) as Hand.
    eapply Forall_impl; [exact Hand|].
    intros item [(d & -> & Hd) (d' & [= <-] & Hd')]. eauto. }
  apply objects_of in Hboth as (ds & -> & Hds).
  apply Forall_and in Hds as [Hds_req Hds_opt].
  exists (candidate_of <$> ds).
  split; [apply decode_candidates_objects; assumption|].
  split; [rewrite !length_fmap; reflexivity|].
  split.
  - clear -Hds_req. induction Hds_req as [|d ds Hd _ IH]; cbn.
    + constructor.
    + constructor; [apply candidate_from_object, Hd | exact IH].
  - apply Forall_fmap. eapply Forall_impl; [exact Hds_opt|].
    intros d Hd. unfold compose, candidate_of. cbn.
    apply Forall_cons in Hd as [-> Hd].
    apply Forall_cons in Hd as [-> Hd].
    apply Forall_cons in Hd as [-> _].
    auto.
Qed.

Lemma candidates_default_fields_witness :
  ∃ records,
    fst (run (list_capture_candidates
                (demo_client (answering (ok_response
                   (VDict {[ "items" :=
                      VList [VDict (demo_item "c1"); VDict (demo_item "c2")] ]}))))
                "pending" 50 None)) = Ok records
    ∧ length records = 2%nat
    ∧ Forall2 candidate_from
        [VDict (demo_item "c1"); VDict (demo_item "c2")] records
    ∧ Forall (λ r,
        CaptureCandidate.reasons r = VList []
        ∧ CaptureCandidate.metadata r = VDict ∅
        ∧ CaptureCandidate.auto_accepted r = VBool false) records.
Proof.
  apply (candidates_default_fields
           (demo_client (answering (ok_response
              (VDict {[ "items" :=
                 VList [VDict (demo_item "c1"); VDict (demo_item "c2")] ]}))))
           "pending" 50 None
           (ok_response
              (VDict {[ "items" :=
                 VList [VDict (demo_item "c1"); VDict (demo_item "c2")] ]}))
           {[ "items" :=
                VList [VDict (demo_item "c1"); VDict (demo_item "c2")] ]}
           [VDict (demo_item "c1"); VDict (demo_item "c2")]).
  - intros req _. reflexivity.
  - split; [cbn; lia|]. eexists. split; [reflexivity|].
    vm_compute. reflexivity.
  - vm_compute. reflexivity.
  - repeat constructor; eexists; (split; [reflexivity|]);
      repeat constructor; vm_compute; eauto.
  - repeat constructor; eexists; (split; [reflexivity|]);
      repeat constructor; vm_compute; reflexivity.
Defined.

(** ** Required and optional fields *)

Lemma first_missing_in keys (d : dict) key :
  first_missing keys d = Some key → key ∈ keys ∧ d !! key = None.
Proof.
  unfold first_missing. intros H. apply find_some in H as [Hin Hb].
  split; [apply list_elem_of_In, Hin|].
  apply negb_true_iff, bool_decide_eq_false in Hb.
  apply eq_None_not_Some, Hb.
Qed.

(** A list with an object that lacks a key of [keys] does not decode; when
    all its elements are objects the error is the [KeyError] of such a key. *)
Lemma traverse_lacking {B} (f : value → result B) keys (table : dict → B)
    (items : list value) :
  (∀ d : dict,
     f (VDict d) =
     match first_missing keys d with
     | Some key => Raise (KeyError key)
     | None => Ok (table d)
     end) →
  (∀ item e, f item = Raise e → decode_error e) →
  Exists (lacks_key keys) items →
  ∃ e, traverse f items = Raise e
    ∧ decode_error e
    ∧ (Forall is_object items → ∃ key, key ∈ keys ∧ e = KeyError key).
Proof.
  intros Hobj Herr Hex.
  destruct (traverse_Raise f items) as (item & e & Hin & Hitem & Htr).
  { eapply Exists_impl; [exact Hex|].
    intros item (d & -> & Hd).
    destruct (first_missing_Some _ _ Hd) as (key & Hkey & _).
    exists (KeyError key). rewrite Hobj, Hkey. reflexivity. }
  exists e. split; [exact Htr|]. split; [eapply Herr, Hitem|].
  intros Hall. rewrite Forall_forall in Hall.
  destruct (Hall item Hin) as [d ->].
  rewrite Hobj in Hitem.
  destruct (first_missing keys d) as [key|] eqn:Hkey; [|discriminate].
  injection Hitem as <-. exists key.
  split; [apply (first_missing_in _ _ _ Hkey) | reflexivity].
Qed.

Lemma score_result_defaults_table (d : dict) :
  score_result_defaults d (score_result_of d).
Proof.
  unfold score_result_defaults, score_result_of. cbn.
  repeat split; intros ->; reflexivity.
Qed.

Lemma candidate_defaults_table (d : dict) :
  candidate_defaults d (candidate_of d).
Proof.
  unfold candidate_defaults, candidate_of. cbn.
  repeat split; intros ->; reflexivity.
Qed.

Lemma decode_score_response_objects threshold (p : dict) (ds : list dict) :
  p !! "results" = Some (VList (VDict <$> ds)) →
  Forall (λ d, Forall (λ k, is_Some (d !! k)) score_result_required) ds →
  ∃ thr,
    decode_score_response threshold (VDict p) =
    Ok {| CaptureScoreResponse.threshold := thr;
          CaptureScoreResponse.results := score_result_of <$> ds |}.
Proof.
  intros Hres Hreq. unfold decode_score_response.
  rewrite !py_get_dict, Hres. cbn.
  rewrite (traverse_Ok _ (λ item,
             match item with
             | VDict d => score_result_of d
             | _ => score_result_of ∅
             end)).
  - cbn. rewrite <- list_fmap_compose. eexists. reflexivity.
  - apply Forall_fmap. eapply Forall_impl; [exact Hreq|].
    intros d Hd.
    change (decode_score_result (VDict d) = Ok (score_result_of d)).
    rewrite decode_score_result_object, first_missing_None; auto.
Qed.

Lemma Forall2_table {A B} (R : A → B → Prop) (f : A → B) (l : list A) :
  (∀ a, R a (f a)) → Forall2 R l (f <$> l).
Proof. intros HR. induction l; cbn; constructor; auto. Qed.

(** C7.  For every call, on a successful response:
    - [score_capture], when some object under [results] lacks one of
      [status], [recommended], [score], raises a decoding error and returns
      no response record; when every element is an object, the error is the
      [KeyError] of a required key;
    - [list_capture_candidates], when some object under [items] lacks one of
      [id], [role], [content], [status], [score], [threshold],
      [recommended], does the same;
    - [score_capture], when every object under [results] has the required
      keys, returns a response with one record per object, in order, and
      each optional field an object lacks has its default in its record:
      [None] for [eventId], [candidateId], [memoryId]; [[]] for [reasons];
    - [list_capture_candidates], when every object under [items] has the
      required keys, returns one record per object, in order, and each
      optional field an object lacks has its default in its record: the
      empty string for [category], [createdAt], [updatedAt]; [[]] for
      [reasons]; [{}] for [metadata]; [None] for [memoryId],
      [autoDecisionReason]; [False] for [autoAccepted]. *)
Theorem required_and_optional_fields :
  (∀ self events threshold subject_id resp (p : dict) items,
     answered self (score_capture self events threshold subject_id) resp →
     successful resp (VDict p) →
     p !! "results" = Some (VList items) →
     Exists (lacks_key score_result_required) items →
     ∃ e, fst (run (score_capture self events threshold subject_id)) = Raise e
       ∧ decode_error e
       ∧ (Forall is_object items →
          ∃ key, key ∈ score_result_required ∧ e = KeyError key))
  ∧ (∀ self status limit subject_id resp (p : dict) items,
       answered self (list_capture_candidates self status limit subject_id)
         resp →
       successful resp (VDict p) →
       p !! "items" = Some (VList items) →
       Exists (lacks_key candidate_required) items →
       ∃ e, fst (run (list_capture_candidates self status limit subject_id)) =
              Raise e
         ∧ decode_error e
         ∧ (Forall is_object items →
            ∃ key, key ∈ candidate_required ∧ e = KeyError key))
  ∧ (∀ self events threshold subject_id resp (p : dict) (ds : list dict),
       answered self (score_capture self events threshold subject_id) resp →
       successful resp (VDict p) →
       p !! "results" = Some (VList (VDict <$> ds)) →
       Forall (λ d, Forall (λ k, is_Some (d !! k)) score_result_required)
         ds →
       ∃ r, fst (run (score_capture self events threshold subject_id)) = Ok r
         ∧ Forall2 score_result_defaults ds (CaptureScoreResponse.results r))
  ∧ (∀ self status limit subject_id resp (p : dict) (ds : list dict),
       answered self (list_capture_candidates self status limit subject_id)
         resp →
       successful resp (VDict p) →
       p !! "items" = Some (VList (VDict <$> ds)) →
       Forall (λ d, Forall (λ k, is_Some (d !! k)) candidate_required) ds →
       ∃ records,
         fst (run (list_capture_candidates self status limit subject_id)) =
           Ok records
         ∧ Forall2 candidate_defaults ds records).
Proof.
  split; [|split; [|split]].
  - intros self events threshold subject_id resp p items Hans Hok Hres Hex.
    rewrite (score_capture_run _ _ _ _ _ _ Hans Hok).
    destruct (traverse_lacking decode_score_result score_result_required
                score_result_of items decode_score_result_object
                decode_score_result_error Hex) as (e & Htr & He).
    exists e. split; [|exact He].
    unfold decode_score_response. rewrite !py_get_dict, Hres. cbn.
    rewrite Htr. reflexivity.
  - intros self status limit subject_id resp p items Hans Hok Hres Hex.
    rewrite (list_capture_candidates_run _ _ _ _ _ _ Hans Hok).
    destruct (traverse_lacking decode_candidate candidate_required
                candidate_of items decode_candidate_object
                decode_candidate_error Hex) as (e & Htr & He).
    exists e. split; [|exact He].
    unfold decode_candidates. rewrite py_get_dict, Hres. cbn. exact Htr.
  - intros self events threshold subject_id resp p ds Hans Hok Hres Hreq.
    rewrite (score_capture_run _ _ _ _ _ _ Hans Hok).
    destruct (decode_score_response_objects threshold p ds Hres Hreq)
      as [thr ->].
    eexists. split; [reflexivity|]. cbn.
    apply Forall2_table, score_result_defaults_table.
  - intros self status limit subject_id resp p ds Hans Hok Hitems Hreq.
    rewrite (list_capture_candidates_run _ _ _ _ _ _ Hans Hok).
    rewrite (decode_candidates_objects p ds Hitems Hreq).
    eexists. split; [reflexivity|].
    apply Forall2_table, candidate_defaults_table.
Qed.

(** A candidate without [content] makes the whole listing fail, although
    the first item is complete; and a score result that has the required
    fields and [eventId] only decodes, with the defaults elsewhere. *)
Lemma required_and_optional_fields_witness :
  (∃ e,
     fst (run (list_capture_candidates
                 (demo_client (answering (ok_response
                    (VDict {[ "items" :=
                       VList [VDict (demo_item "c1");
                              VDict (delete "content" (demo_item "c2"))] ]}))))
                 "pending" 50 None)) = Raise e
     ∧ decode_error e
     ∧ (Forall is_object
          [VDict (demo_item "c1"); VDict (delete "content" (demo_item "c2"))] →
        ∃ key, key ∈ candidate_required ∧ e = KeyError key))
  ∧ (∃ r,
       fst (run (score_capture
                   (demo_client (answering (ok_response
                      (VDict {[ "results" :=
                         VList (VDict <$> [demo_result "e1"]) ]}))))
                   [] None None)) = Ok r
       ∧ Forall2 score_result_defaults [demo_result "e1"]
           (CaptureScoreResponse.results r)).
Proof.
  split.
  - apply (proj1 (proj2 required_and_optional_fields)
             (demo_client (answering (ok_response
                (VDict {[ "items" :=
                   VList [VDict (demo_item "c1");
                          VDict (delete "content" (demo_item "c2"))] ]}))))
             "pending" 50 None
             (ok_response
                (VDict {[ "items" :=
                   VList [VDict (demo_item "c1");
                          VDict (delete "content" (demo_item "c2"))] ]}))
             {[ "items" :=
                  VList [VDict (demo_item "c1");
                         VDict (delete "content" (demo_item "c2"))] ]}
             [VDict (demo_item "c1");
              VDict (delete "content" (demo_item "c2"))]).
    + intros req _. reflexivity.
    + split; [cbn; lia|]. eexists. split; [reflexivity|].
      vm_compute. reflexivity.
    + vm_compute. reflexivity.
    + apply Exists_cons_tl, Exists_cons_hd. eexists. split; [reflexivity|].
      apply Exists_cons_tl, Exists_cons_tl, Exists_cons_hd.
      vm_compute. reflexivity.
  - apply (proj1 (proj2 (proj2 required_and_optional_fields))
             (demo_client (answering (ok_response
                (VDict {[ "results" :=
                   VList (VDict <$> [demo_result "e1"]) ]}))))
             [] None None
             (ok_response
                (VDict {[ "results" :=
                   VList (VDict <$> [demo_result "e1"]) ]}))
             {[ "results" := VList (VDict <$> [demo_result "e1"]) ]}
             [demo_result "e1"]).
    + intros req _. reflexivity.
    + split; [cbn; lia|]. eexists. split; [reflexivity|].
      vm_compute. reflexivity.
    + vm_compute. reflexivity.
    + repeat constructor; vm_compute; eauto.
Defined.

(** ** Absent collections *)

(** C10.  On a successful response whose payload is a mapping:
    [score_capture] returns a response with an empty results list when the
    payload has no [results] key, and [list_capture_candidates] returns the
    empty list when the payload has no [items] key; neither call raises. *)
Theorem absent_collections_decode_empty :
  (∀ self events threshold subject_id resp (p : dict),
     answered self (score_capture self events threshold subject_id) resp →
     successful resp (VDict p) →
     p !! "results" = None →
     ∃ thr,
       fst (run (score_capture self events threshold subject_id)) =
       Ok {| CaptureScoreResponse.threshold := thr;
             CaptureScoreResponse.results := [] |})
  ∧ (∀ self status limit subject_id resp (p : dict),
       answered self (list_capture_candidates self status limit subject_id)
         resp →
       successful resp (VDict p) →
       p !! "items" = None →
       fst (run (list_capture_candidates self status limit subject_id)) =
       Ok []).
Proof.
  split.
  - intros self events threshold subject_id resp p Hans Hok Hres.
    rewrite (score_capture_run _ _ _ _ _ _ Hans Hok).
    unfold decode_score_response. rewrite !py_get_dict, Hres. cbn.
    eexists. reflexivity.
  - intros self status limit subject_id resp p Hans Hok Hitems.
    rewrite (list_capture_candidates_run _ _ _ _ _ _ Hans Hok).
    unfold decode_candidates. rewrite py_get_dict, Hitems. reflexivity.
Qed.

Lemma absent_collections_decode_empty_witness :
  fst (run (list_capture_candidates
              (demo_client (answering (ok_response
                 (VDict {[ "data" := VDict {[ "total" := VInt 0 ]} ]}))))
              "pending" 50 None)) = Ok [].
Proof.
  apply (proj2 absent_collections_decode_empty
           (demo_client (answering (ok_response
              (VDict {[ "data" := VDict {[ "total" := VInt 0 ]} ]}))))
           "pending" 50 None
           (ok_response (VDict {[ "data" := VDict {[ "total" := VInt 0 ]} ]}))
           {[ "total" := VInt 0 ]}).
  - intros req _. reflexivity.
  - split; [cbn; lia|]. eexists. split; [reflexivity|].
    vm_compute. reflexivity.
  - vm_compute. reflexivity.
Defined.

(** ** The threshold of a score response *)

(** When the payload has no [threshold] key, a response that decodes
    carries the fallback [threshold or 0.6]. *)
Lemma score_capture_fallback self events threshold subject_id resp
    (p : dict) r :
  answered self (score_capture self events threshold subject_id) resp →
  successful resp (VDict p) →
  p !! "threshold" = None →
  fst (run (score_capture self events threshold subject_id)) = Ok r →
  CaptureScoreResponse.threshold r = VFloat (py_or threshold float_0_6).
Proof.
  intros Hans Hok Hthr.
  rewrite (score_capture_run _ _ _ _ _ _ Hans Hok).
  unfold decode_score_response. rewrite !py_get_dict, Hthr.
  intros H.
  apply bind_Ok in H as (raw & _ & H).
  apply bind_Ok in H as (items & _ & H).
  apply bind_Ok in H as (results & _ & H).
  cbn in H. injection H as <-. reflexivity.
Qed.

(** No argument, or a float that is not a zero: the fallback is as the
    caller expects. *)
Lemma fallback_unset : py_or (None : option spec_float) float_0_6 = float_0_6.
Proof. reflexivity. Qed.

Lemma fallback_nonzero (f : spec_float) :
  truthy f = true → py_or (Some f) float_0_6 = f.
Proof. unfold py_or. intros ->. reflexivity. Qed.

(** C1 fails on the code.  [score_capture(events=[], threshold=0.0)], when
    the server answers [{}]: the request sent holds the threshold [0.0], yet
    the response returned holds [0.6], not the threshold passed. *)
Theorem zero_threshold_reported_as_default :
  ∃ req body,
    run (score_capture (demo_client (answering (ok_response (VDict ∅))))
           [] (Some float_0_0) None) =
    (Ok {| CaptureScoreResponse.threshold := VFloat float_0_6;
           CaptureScoreResponse.results := [] |},
     [req])
    ∧ json req = Some body
    ∧ body !! "threshold" = Some (VFloat float_0_0)
    ∧ VFloat float_0_6 ≠ VFloat float_0_0.
Proof.
  eexists _, _. split; [reflexivity|]. split; [reflexivity|].
  split; [vm_compute; reflexivity | discriminate].
Qed.

(** * Further properties *)

(** ** URLs *)

Lemma rstrip_slash_decompose (s : string) :
  ∃ n, s = rstrip_slash s +:+ slashes n.
Proof.
  induction s as [|c s [n IH]]; [exists O; reflexivity|].
  cbn [rstrip_slash]. destruct (rstrip_slash s) as [|a r].
  - cbn [String.append] in IH. destruct (Ascii.eqb_spec c "/") as [->|_].
    + exists (S n). rewrite IH at 1. reflexivity.
    + exists n. rewrite IH at 1. reflexivity.
  - exists n. rewrite IH at 1. reflexivity.
Qed.

Lemma rstrip_slash_end (s : string) : ends_with_slash (rstrip_slash s) = false.
Proof.
  induction s as [|c s IH]; [reflexivity|].
  cbn [rstrip_slash]. destruct (rstrip_slash s) as [|a r].
  - destruct (Ascii.eqb c "/") eqn:Hc; [reflexivity|]. cbn. exact Hc.
  - exact IH.
Qed.

(** X1.  The constructor removes trailing slashes from the base URL and
    nothing else: the base it stores does not end with a slash, and the
    URL given is that base followed by slashes only. *)
Theorem base_url_loses_trailing_slashes
    (requests_Session : Session)
    (base_url api_key org_id project_id default_subject_id : string)
    (session : option Session) :
  let self :=
    __init__ requests_Session base_url api_key org_id project_id
      default_subject_id session in
  ends_with_slash (_base self) = false
  ∧ ∃ n, base_url = _base self +:+ slashes n.
Proof.
  cbn. split; [apply rstrip_slash_end | apply rstrip_slash_decompose].
Qed.

(** X2.  [_request] joins base and path with exactly one slash of the
    path's side: the URL is the base, a slash, and the path without its
    leading slash if it has one; so [p] and [/p] name the same URL. *)
Theorem url_joins_with_one_slash self method path json params subject_id :
  Forall (λ req,
    url req = _base self +:+ String "/" (without_leading_slash path))
    (snd (run (_request self method path json params subject_id))).
Proof.
  unfold run. rewrite _request_eq. cbn zeta. cbn [snd app].
  repeat constructor. cbn [url].
  destruct path as [|c rest]; [reflexivity|].
  cbn [startswith_slash without_leading_slash].
  destruct (Ascii.eqb_spec c "/") as [->|_]; reflexivity.
Qed.

(** ** The shape of every request *)

(** X3.  Every request sent by a public method has the timeout 30, a URL
    that is the base followed by [/v1/memories...], and is either a GET with
    query parameters and no JSON body, or a POST with a JSON body and no
    query parameters. *)
Theorem every_request_is_well_shaped self c :
  Forall (well_shaped self) (snd (run (invoke self c))).
Proof.
  unfold run.
  destruct c; cbn [invoke]; rewrite M_fmap_eq; cbn [snd];
    unfold store_memory, list_memories, search, score_capture,
      list_capture_candidates, approve_capture_candidate,
      reject_capture_candidate;
    rewrite ?bind_keywords_eq, ?M_bind_lift;
    try (destruct (collides _ _); [cbn [snd]; constructor|]);
    rewrite _request_eq; cbn zeta; cbn [snd app];
    (constructor; [|constructor]);
    unfold well_shaped; cbn [timeout url method json params];
    (split; [reflexivity|]);
    (split; [eexists; cbn; reflexivity|]);
    first [ left; split; [reflexivity|]; split; [reflexivity|]; eauto
          | right; split; [reflexivity|]; split; [eauto|reflexivity] ].
Qed.

(** ** Errors that come before decoding *)

(** X4.  When the session fails on the request a public method sent (a
    timeout, a connection error), the method raises that failure: it returns
    no value and raises none of the client's own errors. *)
Theorem transport_failure_propagates self c res wire req :
  run (invoke self c) = (res, wire) →
  req ∈ wire →
  _session self req = None →
  res = Raise RequestException.
Proof.
  intros Hrun Hin Hnone. unfold run in Hrun.
  pose proof (invoke_shape self c []) as Hshape.
  destruct (binds c).
  - destruct Hshape as (req0 & k & Heq & _).
    rewrite Heq in Hrun. injection Hrun as <- <-.
    apply list_elem_of_singleton in Hin as ->.
    unfold exchange, settle. rewrite Hnone. reflexivity.
  - rewrite Hshape in Hrun. injection Hrun as <- <-.
    apply elem_of_nil in Hin as [].
Qed.

Lemma transport_failure_propagates_witness :
  fst (run (invoke (demo_client (λ _, None))
              (Score_capture [] None (Some "bob")))) =
  Raise RequestException.
Proof.
  eapply transport_failure_propagates.
  - apply surjective_pairing.
  - cbn. apply list_elem_of_here.
  - reflexivity.
Defined.

(** X5.  When the response has a status code below 400 but its body is not
    JSON, every public method raises the JSON decoding error, whatever the
    body text. *)
Theorem body_that_is_not_json_raises self c res wire req resp :
  run (invoke self c) = (res, wire) →
  req ∈ wire →
  _session self req = Some resp →
  status_code resp < 400 →
  response_json resp = None →
  res = Raise JSONDecodeError.
Proof.
  intros Hrun Hin Hresp Hlt Hjson. unfold run in Hrun.
  pose proof (invoke_shape self c []) as Hshape.
  destruct (binds c).
  - destruct Hshape as (req0 & k & Heq & _).
    rewrite Heq in Hrun. injection Hrun as <- <-.
    apply list_elem_of_singleton in Hin as ->.
    unfold exchange, settle. rewrite Hresp.
    apply Z.leb_gt in Hlt. rewrite Hlt, Hjson. reflexivity.
  - rewrite Hshape in Hrun. injection Hrun as <- <-.
    apply elem_of_nil in Hin as [].
Qed.

Lemma body_that_is_not_json_raises_witness :
  fst (run (invoke
         (demo_client (answering
            {| status_code := 204; text := ""; response_json := None |}))
         (Approve_capture_candidate "abc123" None None))) =
  Raise JSONDecodeError.
Proof.
  eapply body_that_is_not_json_raises with
    (resp := {| status_code := 204; text := ""; response_json := None |}).
  - apply surjective_pairing.
  - cbn. apply list_elem_of_here.
  - reflexivity.
  - cbn. lia.
  - reflexivity.
Defined.

(** ** Methods without decoding *)

Lemma invoke_passthrough self c wire :
  passthrough c = true →
  if binds c
  then ∃ req : request,
         invoke self c wire =
         (exchange (_session self) req ≫= (λ v, Ok (Mapping v)), wire ++ [req])
  else invoke self c wire = (Raise TypeError, wire).
Proof.
  destruct c; cbn [passthrough]; try discriminate; intros _;
    cbn [binds invoke]; rewrite M_fmap_eq;
    unfold store_memory, list_memories, search, approve_capture_candidate,
      reject_capture_candidate;
    rewrite ?bind_keywords_eq;
    try (destruct (collides _ _); cbn [negb]; [reflexivity|]);
    rewrite _request_eq; cbn [fst snd]; cbn zeta;
    eexists; reflexivity.
Qed.

(** X6.  [store_memory], [list_memories], [search],
    [approve_capture_candidate] and [reject_capture_candidate] validate
    nothing: on a successful response they return the payload (the body
    without its envelope) whatever its shape, a mapping or not. *)
Theorem passthrough_returns_the_payload self c res wire req resp payload :
  passthrough c = true →
  run (invoke self c) = (res, wire) →
  req ∈ wire →
  _session self req = Some resp →
  successful resp payload →
  res = Ok (Mapping payload).
Proof.
  intros Hpass Hrun Hin Hresp Hok. unfold run in Hrun.
  pose proof (invoke_passthrough self c [] Hpass) as Hshape.
  destruct (binds c).
  - destruct Hshape as (req0 & Heq).
    rewrite Heq in Hrun. injection Hrun as <- <-.
    apply list_elem_of_singleton in Hin as ->.
    rewrite (exchange_successful _ _ _ _ Hresp Hok). reflexivity.
  - rewrite Hshape in Hrun. injection Hrun as <- <-.
    apply elem_of_nil in Hin as [].
Qed.

Lemma passthrough_returns_the_payload_witness :
  fst (run (invoke
         (demo_client (answering
            (ok_response (VList [VInt 1; VStr "two"]))))
         (Search "tea" None {[ "limit" := VInt 3 ]}))) =
  Ok (Mapping (VList [VInt 1; VStr "two"])).
Proof.
  eapply (passthrough_returns_the_payload
            (demo_client (answering
               (ok_response (VList [VInt 1; VStr "two"]))))
            (Search "tea" None {[ "limit" := VInt 3 ]}))
    with (resp := ok_response (VList [VInt 1; VStr "two"])).
  - reflexivity.
  - apply surjective_pairing.
  - unfold run. cbn [invoke]. rewrite M_fmap_eq, search_eq.
    replace (collides _ _) with false by (vm_compute; reflexivity).
    rewrite _request_eq. cbn [snd app]. apply list_elem_of_here.
  - reflexivity.
  - split; [cbn; lia|]. eexists. split; reflexivity.
Defined.

(** ** Query parameters and bodies *)

Lemma list_memories_eq self limit subject_id filters wire :
  list_memories self limit subject_id filters wire =
  if collides ["self"; "limit"; "subject_id"] filters
  then (Raise TypeError, wire)
  else _request self "GET" "/v1/memories" None
         (Some (dict_display {[ "limit" := VInt limit ]} filters))
         subject_id wire.
Proof. unfold list_memories. apply bind_keywords_eq. Qed.

(** X7.  [list_memories] sends a GET without a JSON body whose query
    parameters are exactly [limit], with the limit passed, and the filters:
    every filter is there with its value, and nothing else is. *)
Theorem list_memories_query self limit subject_id (filters : dict) :
  let sent := snd (run (list_memories self limit subject_id filters)) in
  (∀ req, req ∈ sent →
     method req = "GET" ∧ json req = None
     ∧ ∃ query : dict, params req = Some query
         ∧ query !! "limit" = Some (VInt limit)
         ∧ (∀ k v, filters !! k = Some v → query !! k = Some v)
         ∧ (∀ k, k ≠ "limit" → filters !! k = None → query !! k = None))
  ∧ (collides ["self"; "limit"; "subject_id"] filters = false →
     length sent = 1%nat).
Proof.
  intros sent. subst sent. unfold run. rewrite list_memories_eq.
  split.
  - destruct (collides _ filters) eqn:Hc.
    { intros req Hin. apply elem_of_nil in Hin as []. }
    rewrite _request_eq. cbn zeta. cbn [snd app].
    intros req Hin. apply list_elem_of_singleton in Hin as ->.
    split; [reflexivity|]. split; [reflexivity|].
    eexists. split; [reflexivity|].
    assert (filters !! "limit" = None) as Hlimit
      by (eapply collides_false; [exact Hc | set_solver]).
    split; [|split].
    + rewrite dict_display_base by exact Hlimit. by simplify_map_eq.
    + intros k v Hk. apply dict_display_extra, Hk.
    + intros k Hne Hk. rewrite dict_display_base by exact Hk.
      apply lookup_singleton_ne. congruence.
  - intros ->. rewrite _request_eq. reflexivity.
Qed.

Lemma list_memories_query_witness :
  ∃ req query,
    snd (run (list_memories (demo_client (answering (ok_response VNone)))
                20 None {[ "pinned" := VBool true ]})) = [req]
    ∧ params req = Some query
    ∧ query !! "limit" = Some (VInt 20)
    ∧ query !! "pinned" = Some (VBool true)
    ∧ query !! "cursor" = None.
Proof.
  destruct (list_memories_query
              (demo_client (answering (ok_response VNone)))
              20 None {[ "pinned" := VBool true ]}) as (Hsent & _).
  eexists. cbn in Hsent.
  destruct (Hsent _ (list_elem_of_here _ _))
    as (_ & _ & query & Hparams & Hlimit & Hin & Hout).
  exists query. split; [reflexivity|]. split; [exact Hparams|].
  split; [exact Hlimit|]. split.
  - apply Hin. vm_compute. reflexivity.
  - apply Hout; [discriminate | vm_compute; reflexivity].
Defined.

Lemma headers_subject self subject_id :
  _headers self subject_id !! "X-Capsule-Subject" =
  Some (py_or subject_id (_subject self)).
Proof. unfold _headers. by simplify_map_eq. Qed.

(** X8.  [store_memory] has no subject parameter: a [subject_id] among its
    extra keywords is sent as a field of the body, and the subject header
    stays the default subject of the client. *)
Theorem store_memory_subject_is_a_body_field self content pinned
    (kwargs : dict) v :
  kwargs !! "subject_id" = Some v →
  collides ["self"; "content"; "pinned"] kwargs = false →
  ∃ req body,
    snd (run (store_memory self content pinned kwargs)) = [req]
    ∧ json req = Some body
    ∧ body !! "subject_id" = Some v
    ∧ headers req !! "X-Capsule-Subject" = Some (_subject self).
Proof.
  intros Hv Hc. unfold run. rewrite store_memory_eq, Hc, _request_eq.
  cbn zeta. cbn [snd app].
  eexists _, _. split; [reflexivity|]. split; [reflexivity|].
  split; [apply dict_display_extra, Hv|].
  cbn [headers]. apply headers_subject.
Qed.

Lemma store_memory_subject_is_a_body_field_witness :
  ∃ req body,
    snd (run (store_memory (demo_client (answering (ok_response VNone)))
                "hello" false {[ "subject_id" := VStr "bob" ]})) = [req]
    ∧ json req = Some body
    ∧ body !! "subject_id" = Some (VStr "bob")
    ∧ headers req !! "X-Capsule-Subject" = Some "alice".
Proof.
  apply (store_memory_subject_is_a_body_field
           (demo_client (answering (ok_response VNone)))
           "hello" false {[ "subject_id" := VStr "bob" ]} (VStr "bob")).
  - vm_compute. reflexivity.
  - vm_compute. reflexivity.
Defined.

Lemma truthy_dict_nonempty (o : dict) : o ≠ ∅ → truthy o = true.
Proof.
  intros Hne. unfold truthy, truthy_dict.
  destruct (size o) eqn:Hsize; [|reflexivity].
  apply map_size_empty_iff in Hsize. contradiction.
Qed.

(** X9.  [approve_capture_candidate] sends one POST to
    [/v1/memories/capture/<id>/approve], the id being put in the path as it
    is, with the body [{"memory": m}]: [m] is the overrides mapping when one
    is given and is not empty, and null when none is given or the one given
    is empty. *)
Theorem approve_sends_overrides_or_null self candidate_id overrides
    subject_id :
  ∃ m,
    snd (run (approve_capture_candidate self candidate_id overrides
                subject_id)) =
    [ {| method := "POST";
         url := _base self +:+ "/v1/memories/capture/" +:+ candidate_id
                  +:+ "/approve";
         headers := _headers self subject_id;
         json := Some {[ "memory" := m ]};
         params := None;
         timeout := 30 |} ]
    ∧ (∀ o : dict, overrides = Some o → o ≠ ∅ → m = VDict o)
    ∧ (overrides = None ∨ overrides = Some ∅ → m = VNone).
Proof.
  exists (of_optional VDict (py_or_None overrides)).
  split; [|split].
  - unfold run, approve_capture_candidate. rewrite _request_eq. reflexivity.
  - intros o -> Hne. unfold py_or_None. cbn [truthy truthy_optional].
    change (truthy_optional (Some o)) with (truthy o).
    rewrite truthy_dict_nonempty by exact Hne. reflexivity.
  - intros [-> | ->]; reflexivity.
Qed.

(** ** The threshold of a score response, continued *)

(** X10.  When the payload of [score_capture] has a [threshold] key and the
    call returns, the response carries the server's value, whatever it is
    and whatever threshold the caller passed. *)
Theorem server_threshold_wins self events threshold subject_id resp
    (p : dict) v r :
  answered self (score_capture self events threshold subject_id) resp →
  successful resp (VDict p) →
  p !! "threshold" = Some v →
  fst (run (score_capture self events threshold subject_id)) = Ok r →
  CaptureScoreResponse.threshold r = v.
Proof.
  intros Hans Hok Hthr.
  rewrite (score_capture_run _ _ _ _ _ _ Hans Hok).
  unfold decode_score_response. rewrite !py_get_dict, Hthr.
  intros H.
  apply bind_Ok in H as (raw & _ & H).
  apply bind_Ok in H as (items & _ & H).
  apply bind_Ok in H as (results & _ & H).
  cbn in H. injection H as <-. reflexivity.
Qed.

Lemma server_threshold_wins_witness :
  ∃ r,
    fst (run (score_capture
                (demo_client (answering
                   (ok_response (VDict {[ "threshold" := VInt 1 ]}))))
                [] (Some float_0_6) None)) = Ok r
    ∧ CaptureScoreResponse.threshold r = VInt 1.
Proof.
  eexists. split; [vm_compute; reflexivity|].
  apply (server_threshold_wins
           (demo_client (answering
              (ok_response (VDict {[ "threshold" := VInt 1 ]}))))
           [] (Some float_0_6) None
           (ok_response (VDict {[ "threshold" := VInt 1 ]}))
           {[ "threshold" := VInt 1 ]} (VInt 1)).
  - intros req _. reflexivity.
  - split; [cbn; lia|]. eexists. split; [reflexivity|].
    vm_compute. reflexivity.
  - vm_compute. reflexivity.
  - vm_compute. reflexivity.
Defined.

(** X11.  When the payload of [score_capture] has no [threshold] key and the
    call returns, the response carries 0.6 if the caller passed no
    threshold, and the threshold passed if that is a float other than a
    zero. *)
Theorem threshold_fallback self events threshold subject_id resp
    (p : dict) r :
  answered self (score_capture self events threshold subject_id) resp →
  successful resp (VDict p) →
  p !! "threshold" = None →
  fst (run (score_capture self events threshold subject_id)) = Ok r →
  (threshold = None → CaptureScoreResponse.threshold r = VFloat float_0_6)
  ∧ (∀ f, threshold = Some f → (∀ sign, f ≠ S754_zero sign) →
     CaptureScoreResponse.threshold r = VFloat f).
Proof.
  intros Hans Hok Hthr Hr.
  rewrite (score_capture_fallback _ _ _ _ _ _ _ Hans Hok Hthr Hr).
  split.
  - intros ->. reflexivity.
  - intros f -> Hf. rewrite fallback_nonzero; [reflexivity|].
    destruct f; try reflexivity. destruct (Hf s eq_refl).
Qed.

Lemma threshold_fallback_witness :
  ∃ r,
    fst (run (score_capture
                (demo_client (answering (ok_response (VDict ∅))))
                [] (Some (S754_finite false 1 (-1))) None)) = Ok r
    ∧ CaptureScoreResponse.threshold r = VFloat (S754_finite false 1 (-1)).
Proof.
  eexists. split; [vm_compute; reflexivity|].
  refine (proj2 (threshold_fallback
           (demo_client (answering (ok_response (VDict ∅))))
           [] (Some (S754_finite false 1 (-1))) None
           (ok_response (VDict ∅)) ∅ _ _ _ _ _) _ eq_refl _).
  - intros req _. reflexivity.
  - split; [cbn; lia|]. eexists. split; reflexivity.
  - reflexivity.
  - vm_compute. reflexivity.
  - discriminate.
Defined.

(** ** Score results *)

Lemma score_result_from_object (d : dict) :
  Forall (λ k, is_Some (d !! k)) score_result_required →
  score_result_from d (score_result_of d).
Proof.
  intros Hreq.
  assert (∀ k, k ∈ score_result_required →
            d !! k = Some (default VNone (d !! k))) as Hget.
  { intros k Hk. rewrite Forall_forall in Hreq.
    destruct (Hreq k Hk) as [v ->]. reflexivity. }
  unfold score_result_from, score_result_of. cbn.
  repeat split; apply Hget; unfold score_result_required; set_solver.
Qed.

(** X12.  [score_capture], on a successful response whose payload holds
    under [results] an array of objects that each have [status],
    [recommended] and [score]: the call returns one record per object, in
    the order of the array, each with the object's required fields and, for
    each optional field, the object's value or the field's default. *)
Theorem score_results_in_order self events threshold subject_id resp
    (p : dict) (ds : list dict) :
  answered self (score_capture self events threshold subject_id) resp →
  successful resp (VDict p) →
  p !! "results" = Some (VList (VDict <$> ds)) →
  Forall (λ d, Forall (λ k, is_Some (d !! k)) score_result_required) ds →
  ∃ r,
    fst (run (score_capture self events threshold subject_id)) = Ok r
    ∧ Forall2 score_result_from ds (CaptureScoreResponse.results r).
Proof.
  intros Hans Hok Hres Hreq.
  rewrite (score_capture_run _ _ _ _ _ _ Hans Hok).
  unfold decode_score_response. rewrite !py_get_dict, Hres. cbn.
  rewrite (traverse_Ok _ (λ item,
             match item with
             | VDict d => score_result_of d
             | _ => score_result_of ∅
             end)).
  - cbn. eexists. split; [reflexivity|]. cbn.
    rewrite <- list_fmap_compose.
    clear -Hreq. induction Hreq as [|d ds Hd _ IH]; cbn.
    + constructor.
    + constructor; [apply score_result_from_object, Hd | exact IH].
  - apply Forall_fmap. eapply Forall_impl; [exact Hreq|].
    intros d Hd.
    change (decode_score_result (VDict d) = Ok (score_result_of d)).
    rewrite decode_score_result_object, first_missing_None; auto.
Qed.

Lemma score_results_in_order_witness :
  ∃ r,
    fst (run (score_capture
                (demo_client (answering (ok_response
                   (VDict {[ "results" :=
                      VList (VDict <$> [demo_result "e1"; demo_result "e2"])
                   ]}))))
                [] None None)) = Ok r
    ∧ Forall2 score_result_from [demo_result "e1"; demo_result "e2"]
        (CaptureScoreResponse.results r).
Proof.
  apply (score_results_in_order
           (demo_client (answering (ok_response
              (VDict {[ "results" :=
                 VList (VDict <$> [demo_result "e1"; demo_result "e2"]) ]}))))
           [] None None
           (ok_response
              (VDict {[ "results" :=
                 VList (VDict <$> [demo_result "e1"; demo_result "e2"]) ]}))
           {[ "results" :=
                VList (VDict <$> [demo_result "e1"; demo_result "e2"]) ]}
           [demo_result "e1"; demo_result "e2"]).
  - intros req _. reflexivity.
  - split; [cbn; lia|]. eexists. split; [reflexivity|].
    vm_compute. reflexivity.
  - vm_compute. reflexivity.
  - repeat constructor; vm_compute; eauto.
Defined.

(** ** Keys the decoders do not read *)

Lemma first_missing_ext keys (d d' : dict) :
  (∀ key, key ∈ keys → d' !! key = d !! key) →
  first_missing keys d' = first_missing keys d.
Proof.
  unfold first_missing. induction keys as [|k keys IH]; intros Hsame.
  - reflexivity.
  - cbn [find]. rewrite (Hsame k) by apply list_elem_of_here.
    rewrite IH; [reflexivity|].
    intros key Hkey. apply Hsame, list_elem_of_further, Hkey.
Qed.

Lemma score_result_required_read key :
  key ∈ score_result_required → key ∈ score_result_keys.
Proof.
  unfold score_result_required, score_result_keys. intros H.
  repeat (apply elem_of_cons in H as [-> | H];
          [ repeat first [apply list_elem_of_here | apply list_elem_of_further]
          | ]).
  apply elem_of_nil in H as [].
Qed.

Lemma candidate_required_read key :
  key ∈ candidate_required → key ∈ candidate_keys.
Proof.
  unfold candidate_required, candidate_keys. intros H.
  repeat (apply elem_of_cons in H as [-> | H];
          [ repeat first [apply list_elem_of_here | apply list_elem_of_further]
          | ]).
  apply elem_of_nil in H as [].
Qed.

(** X13.  The decoders ignore every key they do not read: adding to an
    object a key outside the seven of a score result (the fifteen of a
    candidate) changes neither whether it decodes nor the record decoded. *)
Theorem unknown_keys_are_ignored :
  (∀ (d : dict) k v,
     k ∉ score_result_keys →
     decode_score_result (VDict (<[k := v]> d)) =
     decode_score_result (VDict d))
  ∧ (∀ (d : dict) k v,
       k ∉ candidate_keys →
       decode_candidate (VDict (<[k := v]> d)) = decode_candidate (VDict d)).
Proof.
  split; intros d k v Hk.
  - assert (∀ key, key ∈ score_result_keys →
              <[k := v]> d !! key = d !! key) as Hsame.
    { intros key Hkey. apply lookup_insert_ne. congruence. }
    rewrite !decode_score_result_object.
    rewrite (first_missing_ext _ d (<[k := v]> d)).
    2: { intros key Hkey. apply Hsame, score_result_required_read, Hkey. }
    unfold score_result_of.
    rewrite !Hsame by (unfold score_result_keys; set_solver).
    reflexivity.
  - assert (∀ key, key ∈ candidate_keys →
              <[k := v]> d !! key = d !! key) as Hsame.
    { intros key Hkey. apply lookup_insert_ne. congruence. }
    rewrite !decode_candidate_object.
    rewrite (first_missing_ext _ d (<[k := v]> d)).
    2: { intros key Hkey. apply Hsame, candidate_required_read, Hkey. }
    unfold candidate_of.
    rewrite !Hsame by (unfold candidate_keys; set_solver).
    reflexivity.
Qed.

Lemma unknown_keys_are_ignored_witness :
  decode_candidate (VDict (<["embedding" := VList [VInt 1]]> (demo_item "c1")))
  = decode_candidate (VDict (demo_item "c1")).
Proof.
  apply (proj2 unknown_keys_are_ignored).
  unfold candidate_keys. intros Hin.
  repeat (apply elem_of_cons in Hin as [Hin | Hin]; [discriminate Hin|]).
  apply elem_of_nil in Hin as [].
Defined.

(** ** Payloads of the wrong shape *)

(** X14.  When the payload of a successful response is not a mapping (a
    list, a string, a number, or null, as for the body [{"data": null}]),
    [score_capture] and [list_capture_candidates] raise [AttributeError]. *)
Theorem payload_that_is_no_mapping_raises :
  (∀ self events threshold subject_id resp payload,
     answered self (score_capture self events threshold subject_id) resp →
     successful resp payload →
     (∀ d, payload ≠ VDict d) →
     fst (run (score_capture self events threshold subject_id)) =
     Raise AttributeError)
  ∧ (∀ self status limit subject_id resp payload,
       answered self (list_capture_candidates self status limit subject_id)
         resp →
       successful resp payload →
       (∀ d, payload ≠ VDict d) →
       fst (run (list_capture_candidates self status limit subject_id)) =
       Raise AttributeError).
Proof.
  split.
  - intros self events threshold subject_id resp payload Hans Hok Hno.
    rewrite (score_capture_run _ _ _ _ _ _ Hans Hok).
    destruct payload; try reflexivity. destruct (Hno d eq_refl).
  - intros self status limit subject_id resp payload Hans Hok Hno.
    rewrite (list_capture_candidates_run _ _ _ _ _ _ Hans Hok).
    destruct payload; try reflexivity. destruct (Hno d eq_refl).
Qed.

Lemma payload_that_is_no_mapping_raises_witness :
  fst (run (score_capture
              (demo_client (answering
                 (ok_response (VDict {[ "data" := VNone ]}))))
              [] None None)) = Raise AttributeError.
Proof.
  apply (proj1 payload_that_is_no_mapping_raises
           (demo_client (answering
              (ok_response (VDict {[ "data" := VNone ]}))))
           [] None None
           (ok_response (VDict {[ "data" := VNone ]})) VNone).
  - intros req _. reflexivity.
  - split; [cbn; lia|]. eexists. split; [reflexivity|].
    vm_compute. reflexivity.
  - discriminate.
Defined.

(** X15.  A key that is present with a scalar value is not a key that is
    absent: when [results] (for [score_capture]) or [items] (for
    [list_capture_candidates]) is null, a boolean or a number, the call
    raises [TypeError]. *)
Theorem collection_that_is_scalar_raises :
  (∀ self events threshold subject_id resp (p : dict) v,
     answered self (score_capture self events threshold subject_id) resp →
     successful resp (VDict p) →
     p !! "results" = Some v →
     is_scalar v →
     fst (run (score_capture self events threshold subject_id)) =
     Raise TypeError)
  ∧ (∀ self status limit subject_id resp (p : dict) v,
       answered self (list_capture_candidates self status limit subject_id)
         resp →
       successful resp (VDict p) →
       p !! "items" = Some v →
       is_scalar v →
       fst (run (list_capture_candidates self status limit subject_id)) =
       Raise TypeError).
Proof.
  split.
  - intros self events threshold subject_id resp p v Hans Hok Hv Hscalar.
    rewrite (score_capture_run _ _ _ _ _ _ Hans Hok).
    unfold decode_score_response. rewrite !py_get_dict, Hv.
    destruct v; try destruct Hscalar; reflexivity.
  - intros self status limit subject_id resp p v Hans Hok Hv Hscalar.
    rewrite (list_capture_candidates_run _ _ _ _ _ _ Hans Hok).
    unfold decode_candidates. rewrite !py_get_dict, Hv.
    destruct v; try destruct Hscalar; reflexivity.
Qed.

Lemma collection_that_is_scalar_raises_witness :
  fst (run (list_capture_candidates
              (demo_client (answering
                 (ok_response (VDict {[ "items" := VNone ]}))))
              "pending" 50 None)) = Raise TypeError.
Proof.
  apply (proj2 collection_that_is_scalar_raises
           (demo_client (answering
              (ok_response (VDict {[ "items" := VNone ]}))))
           "pending" 50 None
           (ok_response (VDict {[ "items" := VNone ]}))
           {[ "items" := VNone ]} VNone).
  - intros req _. reflexivity.
  - split; [cbn; lia|]. eexists. split; [reflexivity|].
    vm_compute. reflexivity.
  - vm_compute. reflexivity.
  - exact I.
Defined.

Lemma traverse_stops {A B} (f : A → result B) (good : list A) (g : A → B)
    a rest e :
  Forall (λ x, f x = Ok (g x)) good →
  f a = Raise e →
  traverse f (good ++ a :: rest) = Raise e.
Proof.
  intros Hgood Ha. induction Hgood as [|x good Hx _ IH]; cbn.
  - rewrite Ha. reflexivity.
  - rewrite Hx, IH. reflexivity.
Qed.

(** X16.  An element that is not an object, after any number of complete
    objects, makes the whole call fail: [score_capture] raises
    [AttributeError] and [list_capture_candidates] raises [TypeError];
    the records decoded before it are not returned. *)
Theorem element_that_is_no_object_raises :
  (∀ self events threshold subject_id resp (p : dict) good bad rest,
     answered self (score_capture self events threshold subject_id) resp →
     successful resp (VDict p) →
     p !! "results" = Some (VList ((VDict <$> good) ++ bad :: rest)) →
     Forall (λ d : dict,
       Forall (λ k, is_Some (d !! k)) score_result_required) good →
     (∀ d, bad ≠ VDict d) →
     fst (run (score_capture self events threshold subject_id)) =
     Raise AttributeError)
  ∧ (∀ self status limit subject_id resp (p : dict) good bad rest,
       answered self (list_capture_candidates self status limit subject_id)
         resp →
       successful resp (VDict p) →
       p !! "items" = Some (VList ((VDict <$> good) ++ bad :: rest)) →
       Forall (λ d : dict,
         Forall (λ k, is_Some (d !! k)) candidate_required) good →
       (∀ d, bad ≠ VDict d) →
       fst (run (list_capture_candidates self status limit subject_id)) =
       Raise TypeError).
Proof.
  split.
  - intros self events threshold subject_id resp p good bad rest
      Hans Hok Hres Hgood Hbad.
    rewrite (score_capture_run _ _ _ _ _ _ Hans Hok).
    unfold decode_score_response. rewrite !py_get_dict, Hres. cbn.
    rewrite (traverse_stops _ _ (λ item,
               match item with
               | VDict d => score_result_of d
               | _ => score_result_of ∅
               end) _ _ AttributeError); [reflexivity| |].
    + apply Forall_fmap. eapply Forall_impl; [exact Hgood|].
      intros d Hd.
      change (decode_score_result (VDict d) = Ok (score_result_of d)).
      rewrite decode_score_result_object, first_missing_None; auto.
    + destruct bad; try reflexivity. destruct (Hbad d eq_refl).
  - intros self status limit subject_id resp p good bad rest
      Hans Hok Hres Hgood Hbad.
    rewrite (list_capture_candidates_run _ _ _ _ _ _ Hans Hok).
    unfold decode_candidates. rewrite !py_get_dict, Hres. cbn.
    apply (traverse_stops _ _ (λ item,
             match item with
             | VDict d => candidate_of d
             | _ => candidate_of ∅
             end)).
    + apply Forall_fmap. eapply Forall_impl; [exact Hgood|].
      intros d Hd.
      change (decode_candidate (VDict d) = Ok (candidate_of d)).
      rewrite decode_candidate_object, first_missing_None; auto.
    + destruct bad; try reflexivity. destruct (Hbad d eq_refl).
Qed.

Lemma element_that_is_no_object_raises_witness :
  fst (run (list_capture_candidates
              (demo_client (answering (ok_response
                 (VDict {[ "items" :=
                    VList [VDict (demo_item "c1"); VStr "c2"] ]}))))
              "pending" 50 None)) = Raise TypeError.
Proof.
  apply (proj2 element_that_is_no_object_raises
           (demo_client (answering (ok_response
              (VDict {[ "items" :=
                 VList [VDict (demo_item "c1"); VStr "c2"] ]}))))
           "pending" 50 None
           (ok_response
              (VDict {[ "items" :=
                 VList [VDict (demo_item "c1"); VStr "c2"] ]}))
           {[ "items" := VList [VDict (demo_item "c1"); VStr "c2"] ]}
           [demo_item "c1"] (VStr "c2") []).
  - intros req _. reflexivity.
  - split; [cbn; lia|]. eexists. split; [reflexivity|].
    vm_compute. reflexivity.
  - vm_compute. reflexivity.
  - repeat constructor; vm_compute; eauto.
  - discriminate.
Defined.

(** ** Which key the error names *)

Lemma first_missing_split pre key post (d : dict) :
  Forall (λ k, is_Some (d !! k)) pre →
  d !! key = None →
  first_missing (pre ++ key :: post) d = Some key.
Proof.
  unfold first_missing. intros Hpre Hkey.
  induction Hpre as [|k pre Hk _ IH]; cbn [app find].
  - rewrite bool_decide_eq_false_2; [reflexivity|].
    intros [v Hv]. congruence.
  - rewrite bool_decide_eq_true_2 by exact Hk. exact IH.
Qed.

(** X17.  An object that lacks required keys raises the [KeyError] of the
    first one it lacks, in the order [status], [recommended], [score] for a
    score result and [id], [role], [content], [status], [score],
    [threshold], [recommended] for a candidate, whatever else it lacks. *)
Theorem key_error_names_first_missing_key :
  (∀ (d : dict) pre key post,
     score_result_required = pre ++ key :: post →
     Forall (λ k, is_Some (d !! k)) pre →
     d !! key = None →
     decode_score_result (VDict d) = Raise (KeyError key))
  ∧ (∀ (d : dict) pre key post,
       candidate_required = pre ++ key :: post →
       Forall (λ k, is_Some (d !! k)) pre →
       d !! key = None →
       decode_candidate (VDict d) = Raise (KeyError key)).
Proof.
  split; intros d pre key post Hsplit Hpre Hkey.
  - rewrite decode_score_result_object, Hsplit.
    rewrite (first_missing_split _ _ _ _ Hpre Hkey). reflexivity.
  - rewrite decode_candidate_object, Hsplit.
    rewrite (first_missing_split _ _ _ _ Hpre Hkey). reflexivity.
Qed.

Lemma key_error_names_first_missing_key_witness :
  decode_candidate
    (VDict (delete "role" (delete "score" (demo_item "c1")))) =
  Raise (KeyError "role").
Proof.
  apply (proj2 key_error_names_first_missing_key
           (delete "role" (delete "score" (demo_item "c1")))
           ["id"] "role"
           ["content"; "status"; "score"; "threshold"; "recommended"]).
  - reflexivity.
  - repeat constructor. vm_compute. eauto.
  - vm_compute. reflexivity.
Defined.

(** ** Base URLs that differ by trailing slashes *)

Lemma rstrip_slash_slashes (n : nat) : rstrip_slash (slashes n) = EmptyString.
Proof. induction n as [|n IH]; [reflexivity|]. cbn. rewrite IH. reflexivity. Qed.

Lemma rstrip_slash_app_slashes (s : string) (n : nat) :
  rstrip_slash (s +:+ slashes n) = rstrip_slash s.
Proof.
  induction s as [|c s IH].
  - apply rstrip_slash_slashes.
  - change (rstrip_slash (String c (s +:+ slashes n)) =
            rstrip_slash (String c s)).
    cbn [rstrip_slash]. rewrite IH. reflexivity.
Qed.

(** X18.  Clients built from base URLs that differ only by slashes at the
    end are the same client: they send the same requests. *)
Theorem trailing_slashes_do_not_matter
    (requests_Session : Session)
    (base_url api_key org_id project_id default_subject_id : string)
    (session : option Session) (n : nat) :
  __init__ requests_Session (base_url +:+ slashes n) api_key org_id
    project_id default_subject_id session =
  __init__ requests_Session base_url api_key org_id project_id
    default_subject_id session.
Proof. unfold __init__. rewrite rstrip_slash_app_slashes. reflexivity. Qed.
